(** * Mini ATM simulator: a shallow embedding of the backend and of the
      client session hook, and the properties of its specification.

    Sources embedded here:
    - [backend/server.js]                 (module [Server])
    - [backend/services/rfidReader.js]    (module [RFIDReader])
    - [backend/services/printerService.js] (module [PrinterService])
    - [src/hooks/useATMConnection.ts]     (module [UseATMConnection])

    Conventions.  A JavaScript string is a [string] holding its UTF-8
    bytes; a JavaScript number that is used as a byte or as a time is a
    [Z]; an amount of money is an IEEE double ([float]); [null] and
    [undefined] are [None].  A call that may throw (or a promise that may
    reject) returns a [Completion].  Console output is not modelled. *)

From Stdlib Require Import String Ascii List ZArith Bool Lia Floats.
Import ListNotations.
Local Open Scope string_scope.
Local Open Scope Z_scope.
Set Warnings "-register-all".

(** ** JavaScript values *)

Definition Number := float.

Inductive Json : Type :=
| JNull
| JBool (b : bool)
| JNum (n : Number)
| JStr (s : string)
| JArr (items : list Json)
| JObj (fields : list (string * Json)).

(** The result of evaluating something that may throw. *)
Inductive Completion (A : Type) : Type :=
| Normal (a : A)
| Throw (message : string).
Arguments Normal {A} a.
Arguments Throw {A} message.

Definition isNormal {A} (c : Completion A) : bool :=
  match c with Normal _ => true | Throw _ => false end.

(** [!!x] for a variable that is either unassigned or holds an object. *)
Definition truthyObject {A} (x : option A) : bool :=
  match x with Some _ => true | None => false end.

(** Truthiness of a value that is [null] or a string: [null] and the
    empty string are falsy. *)
Definition truthyString (x : option string) : bool :=
  match x with
  | Some s => negb (String.eqb s "")
  | None => false
  end.

(** ** String primitives used by the sources *)

Module JsString.

Definition ofList (l : list ascii) : string := string_of_list_ascii l.
Definition toList (s : string) : list ascii := list_ascii_of_string s.

(** The digit of value [d] in [Number.prototype.toString(16)]. *)
Definition hexDigit (d : Z) : ascii :=
  if d <? 10 then ascii_of_N (Z.to_N (48 + d))
  else ascii_of_N (Z.to_N (87 + d)).

Fixpoint hexDigits (fuel : nat) (n : Z) (acc : list ascii) : list ascii :=
  match fuel with
  | O => acc
  | S fuel' =>
      let acc' := hexDigit (n mod 16) :: acc in
      if n / 16 =? 0 then acc' else hexDigits fuel' (n / 16) acc'
  end.

(** [n.toString(16)] for an integer [n]: lower-case digits, most
    significant first, a leading minus sign for a negative number. *)
Definition toString16 (n : Z) : string :=
  let digits := hexDigits (S (Z.to_nat (Z.log2 (Z.abs n)))) (Z.abs n) [] in
  if n <? 0 then String "-" (ofList digits) else ofList digits.

Definition upperAscii (c : ascii) : ascii :=
  let n := N_of_ascii c in
  if ((97 <=? n) && (n <=? 122))%N then ascii_of_N (n - 32) else c.

(** [s.toUpperCase()] on the ASCII letters. *)
Definition toUpperCase (s : string) : string :=
  ofList (map upperAscii (toList s)).

(** The first [k] characters of [fill] repeated for ever; [cur] is what
    is left of the current copy. *)
Fixpoint cycle (k : nat) (cur fill : list ascii) : list ascii :=
  match k with
  | O => []
  | S k' =>
      match cur with
      | c :: cur' => c :: cycle k' cur' fill
      | [] =>
          match fill with
          | c :: cur' => c :: cycle k' cur' fill
          | [] => []
          end
      end
  end.

(** [s.padStart(target, fill)]. *)
Definition padStart (target : nat) (fill : string) (s : string) : string :=
  if (target <=? String.length s)%nat then s
  else ofList (cycle (target - String.length s)%nat [] (toList fill)) ++ s.

(** [parts.join(sep)]. *)
Fixpoint join (sep : string) (parts : list string) : string :=
  match parts with
  | [] => ""
  | [p] => p
  | p :: rest => p ++ sep ++ join sep rest
  end.

Definition isDigit (c : ascii) : bool :=
  let n := N_of_ascii c in ((48 <=? n) && (n <=? 57))%N.

(** [s.replace(/(\d{4})/g, '$1 ')]: scanning from the left, every run of
    four digits is followed by a space and the scan resumes after it. *)
Fixpoint spaceDigitGroups (s : string) : string :=
  match s with
  | EmptyString => EmptyString
  | String a s' =>
      match s' with
      | String b (String c (String d rest)) =>
          if isDigit a && isDigit b && isDigit c && isDigit d
          then String a (String b (String c (String d
                 (String " " (spaceDigitGroups rest)))))
          else String a (spaceDigitGroups s')
      | _ => String a (spaceDigitGroups s')
      end
  end.

(** The white space and line terminators removed by [trim], as UTF-8
    byte sequences: TAB, LF, VT, FF, CR, SP, U+00A0, U+1680,
    U+2000..U+200A, U+2028, U+2029, U+202F, U+205F, U+3000, U+FEFF. *)
Definition whiteSpace : list (list N) :=
  List.app
    [ [9]; [10]; [11]; [12]; [13]; [32]; [194; 160]; [225; 154; 128] ]%N
    (List.app
       (map (fun k => [226; 128; 128 + k]%N)
            [0; 1; 2; 3; 4; 5; 6; 7; 8; 9; 10]%N)
       [ [226; 128; 168]; [226; 128; 169]; [226; 128; 175];
         [226; 129; 159]; [227; 128; 128]; [239; 187; 191] ]%N).

(** [stripPrefix p l] is what follows [p] in [l], when [l] starts
    with [p]. *)
Fixpoint stripPrefix (p : list N) (l : list ascii) : option (list ascii) :=
  match p, l with
  | [], _ => Some l
  | x :: p', c :: l' =>
      if (N_of_ascii c =? x)%N then stripPrefix p' l' else None
  | _ :: _, [] => None
  end.

Fixpoint stripAny (ps : list (list N)) (l : list ascii)
  : option (list ascii) :=
  match ps with
  | [] => None
  | p :: ps' =>
      match stripPrefix p l with
      | Some l' => Some l'
      | None => stripAny ps' l
      end
  end.

(** Removes leading sequences of [ps]; every sequence is non-empty, so
    [length l] steps are enough. *)
Fixpoint dropLeading (fuel : nat) (ps : list (list N)) (l : list ascii)
  : list ascii :=
  match fuel with
  | O => l
  | S fuel' =>
      match stripAny ps l with
      | Some l' => dropLeading fuel' ps l'
      | None => l
      end
  end.

Definition trimStart (l : list ascii) : list ascii :=
  dropLeading (length l) whiteSpace l.

Definition trimEnd (l : list ascii) : list ascii :=
  rev (dropLeading (length l) (map (@rev N) whiteSpace) (rev l)).

(** [s.trim()]. *)
Definition trim (s : string) : string :=
  ofList (trimEnd (trimStart (toList s))).

(** [Buffer.from(text, 'utf-8')] as an array of byte values. *)
Definition utf8Bytes (s : string) : list Z :=
  map (fun c => Z.of_N (N_of_ascii c)) (toList s).

(** No byte of [pattern] is a decimal digit. *)
Definition noDigit (pattern : list N) : bool :=
  forallb (fun x => negb ((48 <=? x) && (x <=? 57))%N) pattern.

(** The decimal digits of [s], in order. *)
Definition digitsOf (s : string) : list ascii :=
  filter isDigit (toList s).

End JsString.

(** ** The data model: account records *)

Record Transaction : Type := mkTransaction {
  tx_date : string;
  tx_type : string;
  tx_amount : Number;
  tx_balance : Number
}.

Record User : Type := mkUser {
  uid : string;
  cardNumber : string;
  name : string;
  accountType : string;
  balance : Number;
  transactions : list Transaction
}.

Definition jsonOfTransaction (t : Transaction) : Json :=
  JObj [ ("date", JStr (tx_date t)); ("type", JStr (tx_type t));
         ("amount", JNum (tx_amount t)); ("balance", JNum (tx_balance t)) ].

(** The JSON text that [res.json(user)] sends for an account record. *)
Definition jsonOfUser (u : User) : Json :=
  JObj [ ("uid", JStr (uid u)); ("cardNumber", JStr (cardNumber u));
         ("name", JStr (name u)); ("accountType", JStr (accountType u));
         ("balance", JNum (balance u));
         ("transactions", JArr (map jsonOfTransaction (transactions u))) ].

(** [value === null ? null : value] as JSON. *)
Definition jsonOfOptString (x : option string) : Json :=
  match x with Some s => JStr s | None => JNull end.

(** ** backend/services/rfidReader.js *)

Module RFIDReader.

(** What the RC522 driver answers to the three calls of one [readCard]:
    [reset()], [findCard()] (its [status]) and [getUid()] (its [status]
    and [data]). *)
Record Access : Type := mkAccess {
  reset : Completion unit;
  findCard : Completion bool;
  getUid : Completion (bool * list Z)
}.

Definition noCard : Access :=
  {| reset := Normal tt; findCard := Normal false;
     getUid := Normal (false, []) |}.

(** The driver object, with the answers of the accesses to come; once
    they are used up no card is in the field. *)
Record MFRC522 : Type := mkMFRC522 { answers : list Access }.

Record t : Type := mkReader {
  reader : option MFRC522;
  isInitialized : bool
}.

(** [new RFIDReader()].  [driver] is [None] when the [mfrc522-rpi]
    module was not loaded and holds the outcome of [new MFRC522()]
    otherwise. *)
Definition new (driver : option (Completion MFRC522)) : Completion t :=
  match driver with
  | Some (Normal dev) =>
      Normal {| reader := Some dev; isInitialized := true |}
  | Some (Throw _) => Throw "RFID hardware not available"
  | None => Throw "RFID hardware not available"
  end.

(** [uid.data.map(byte => byte.toString(16).toUpperCase()
      .padStart(2, '0')).join('')] *)
Definition uidHex (data : list Z) : string :=
  JsString.join ""
    (map (fun byte =>
            JsString.padStart 2 "0"
              (JsString.toUpperCase (JsString.toString16 byte)))
         data).

(** The first pending access and the driver after it. *)
Definition nextAccess (dev : MFRC522) : Access * MFRC522 :=
  match answers dev with
  | a :: rest => (a, {| answers := rest |})
  | [] => (noCard, dev)
  end.

(** [readCard()]: the promise resolves to a UID or to [null], or it is
    rejected. *)
Definition readCard (this : t) : Completion (option string) * t :=
  match isInitialized this, reader this with
  | true, Some dev =>
      let (a, dev') := nextAccess dev in
      let this' := {| reader := Some dev';
                      isInitialized := isInitialized this |} in
      match reset a with
      | Throw e => (Throw e, this')
      | Normal _ =>
          match findCard a with
          | Throw e => (Throw e, this')
          | Normal false => (Normal None, this')
          | Normal true =>
              match getUid a with
              | Throw e => (Throw e, this')
              | Normal (false, _) => (Normal None, this')
              | Normal (true, data) => (Normal (Some (uidHex data)), this')
              end
          end
      end
  | _, _ => (Throw "RFID reader not initialized", this)
  end.

(** The state of one [startContinuousRead] loop: the reader, the
    caller's callback, the closure variable [lastUid], and the
    [setTimeout] callbacks not yet run, each with the time it is due at
    and the [uid] it captured.  Times are in milliseconds.
    [onCardDetected now uid] is what the call [onCardDetected(uid)] made
    at time [now] comes to: it returns, or it throws. *)
Record Polling : Type := mkPolling {
  self : t;
  onCardDetected : Z -> string -> Completion unit;
  interval : Z;
  lastUid : option string;
  timeouts : list (Z * string)
}.

(** [startContinuousRead(onCardDetected, interval = 1000)] up to the
    creation of the interval timer. *)
Definition startContinuousRead (this : t)
           (onCardDetected : Z -> string -> Completion unit)
           (interval : option Z)
  : Completion Polling :=
  if negb (isInitialized this) then Throw "RFID reader not initialized"
  else Normal {| self := this;
                 onCardDetected := onCardDetected;
                 interval := match interval with Some i => i | None => 1000 end;
                 lastUid := None; timeouts := [] |}.

(** [uid !== lastUid] for a string [uid]. *)
Definition differs (uid : string) (last : option string) : bool :=
  match last with
  | Some l => negb (String.eqb uid l)
  | None => true
  end.

(** The [setTimeout] callback: [if (lastUid === uid) lastUid = null]. *)
Definition expire (uid : string) (last : option string) : option string :=
  match last with
  | Some l => if String.eqb l uid then None else last
  | None => None
  end.

(** Runs the callbacks that are due at time [now], oldest first, and
    keeps the others. *)
Fixpoint runTimeouts (now : Z) (pending : list (Z * string))
         (last : option string) : list (Z * string) * option string :=
  match pending with
  | [] => ([], last)
  | (due, uid) :: rest =>
      if due <=? now then runTimeouts now rest (expire uid last)
      else
        let (rest', last') := runTimeouts now rest last in
        ((due, uid) :: rest', last')
  end.

(** One run of the interval callback at time [now], after the timeouts
    due by then.  The second component is the argument of
    [onCardDetected] when it is called.  When the call throws, the
    [catch] takes over and [setTimeout] is not reached. *)
Definition tick (now : Z) (p : Polling) : Polling * option string :=
  let (pending, last) := runTimeouts now (timeouts p) (lastUid p) in
  let (result, this') := readCard (self p) in
  let idle := {| self := this'; onCardDetected := onCardDetected p;
                 interval := interval p;
                 lastUid := last; timeouts := pending |} in
  match result with
  | Normal (Some uid) =>
      if truthyString (Some uid) && differs uid last
      then ({| self := this'; onCardDetected := onCardDetected p;
               interval := interval p;
               lastUid := Some uid;
               timeouts :=
                 match onCardDetected p now uid with
                 | Normal _ => List.app pending [(now + 5000, uid)]
                 | Throw _ => pending
                 end |},
            Some uid)
      else (idle, None)
  | Normal None => (idle, None)
  | Throw _ => (idle, None)
  end.

(** The interval callback at each of the times [times]; the result
    lists, per tick, the call of [onCardDetected] if any. *)
Fixpoint run (times : list Z) (p : Polling)
  : Polling * list (option string) :=
  match times with
  | [] => (p, [])
  | now :: later =>
      let (p1, call) := tick now p in
      let (p2, calls) := run later p1 in
      (p2, call :: calls)
  end.

(** The argument of the latest call of [onCardDetected] among [calls],
    [before] when there is none. *)
Fixpoint lastEmitted (before : option string) (calls : list (option string))
  : option string :=
  match calls with
  | [] => before
  | Some uid :: later => lastEmitted (Some uid) later
  | None :: later => lastEmitted before later
  end.

(** After [onCardDetected(uid)] at time [start], as long as it is not
    called again, [lastUid] is [uid] with its timeout pending, or it has
    been cleared. *)
Definition armed (start : Z) (uid : string) (p : Polling) : Prop :=
  lastUid p = None
  \/ (lastUid p = Some uid /\ In (start + 5000, uid) (timeouts p)).

(** The times of the first [n] ticks of a timer of period
    [interval p] started at time [start]. *)
Definition schedule (p : Polling) (start : Z) (n : nat) : list Z :=
  map (fun k => start + interval p * Z.of_nat k) (seq 1 n).

(** [n] calls of [readCard] one after the other: what each resolved to
    or was rejected with, and the reader afterwards. *)
Fixpoint reads (n : nat) (this : t)
  : list (Completion (option string)) * t :=
  match n with
  | O => ([], this)
  | S n' =>
      let (result, this1) := readCard this in
      let (results, this2) := reads n' this1 in
      (result :: results, this2)
  end.

End RFIDReader.

(** The mock reader of the same file. *)

Module MockRFIDReader.

Record t : Type := mkMock {
  mockCards : list string;
  currentIndex : nat
}.

(** [new MockRFIDReader()] *)
Definition new : t :=
  {| mockCards := ["A1B2C3D4"; "E5F6G7H8"; "I9J0K1L2"; "M3N4O5P6"];
     currentIndex := 0 |}.

(** [readCard()]: [mockCards[currentIndex]], [undefined] beyond the end,
    and the index moves on modulo the number of cards. *)
Definition readCard (this : t) : option string * t :=
  (nth_error (mockCards this) (currentIndex this),
   {| mockCards := mockCards this;
      currentIndex :=
        ((currentIndex this + 1) mod length (mockCards this))%nat |}).

(** [startContinuousRead(onCardDetected, interval = 2000)] through
    [ticks] runs of the interval callback: the arguments of
    [onCardDetected], one per tick. *)
Fixpoint run (ticks : nat) (this : t) : list (option string) * t :=
  match ticks with
  | O => ([], this)
  | S ticks' =>
      let (uid, this1) := readCard this in
      let (calls, this2) := run ticks' this1 in
      (uid :: calls, this2)
  end.

End MockRFIDReader.

(** ** backend/services/printerService.js *)

(** The functions of the JavaScript host that the receipt uses and that
    depend on the platform: [balance.toFixed(digits)] and
    [new Date(timestamp).toLocaleString()]. *)
Class Host : Type := mkHost {
  toFixed : Number -> Z -> string;
  toLocaleString : string -> string
}.

Module PrinterService.

Definition ESC : Z := 0x1B.
Definition GS : Z := 0x1D.

Module COMMANDS.
Definition INIT : list Z := [ESC; 0x40].
Definition ALIGN_CENTER : list Z := [ESC; 0x61; 0x01].
Definition ALIGN_LEFT : list Z := [ESC; 0x61; 0x00].
Definition BOLD_ON : list Z := [ESC; 0x45; 0x01].
Definition BOLD_OFF : list Z := [ESC; 0x45; 0x00].
Definition UNDERLINE_ON : list Z := [ESC; 0x2D; 0x01].
Definition UNDERLINE_OFF : list Z := [ESC; 0x2D; 0x00].
Definition FONT_SIZE_NORMAL : list Z := [GS; 0x21; 0x00].
Definition FONT_SIZE_DOUBLE : list Z := [GS; 0x21; 0x11].
Definition FEED_LINE : list Z := [0x0A].
Definition CUT_PAPER : list Z := [GS; 0x56; 0x00].
End COMMANDS.

(** The serial port: the buffers written so far, oldest first, and the
    outcome of the writes to come ([Some err] when the write callback
    receives [err]); once these are used up every write succeeds. *)
Record SerialPort : Type := mkSerialPort {
  path : string;
  baud : Z;
  written : list (list Z);
  outcomes : list (option string)
}.

Record t : Type := mkPrinter {
  portPath : string;
  baudRate : Z;
  port : option SerialPort;
  isConnected : bool
}.

(** [new PrinterService(portPath = '/dev/serial0', baudRate = 19200)];
    [open] is the outcome of [new SerialPort({path, baudRate, ...})]. *)
Definition new (open : string -> Z -> Completion SerialPort)
           (portPath : option string) (baudRate : option Z)
  : Completion t :=
  let portPath := match portPath with Some p => p | None => "/dev/serial0" end in
  let baudRate := match baudRate with Some b => b | None => 19200 end in
  match open portPath baudRate with
  | Normal sp =>
      Normal {| portPath := portPath; baudRate := baudRate;
                port := Some sp; isConnected := false |}
  | Throw _ => Throw "Printer hardware not available"
  end.

(** Code that runs on the printer object and may throw. *)
Definition Action (A : Type) : Type := t -> Completion A * t.

Definition ret {A} (a : A) : Action A := fun this => (Normal a, this).

Definition bind {A B} (c : Action A) (k : A -> Action B) : Action B :=
  fun this =>
    match c this with
    | (Normal a, this') => k a this'
    | (Throw e, this') => (Throw e, this')
    end.

Notation "c ;; k" := (bind c (fun _ => k))
  (at level 61, right associativity).

Definition when (b : bool) (c : Action unit) : Action unit :=
  if b then c else ret tt.

(** [Buffer.from(command)]: every entry becomes a byte. *)
Definition bufferFrom (command : list Z) : list Z :=
  map (fun b => b mod 256) command.

(** [port.write(buffer, callback)]. *)
Definition write (buffer : list Z) (sp : SerialPort)
  : Completion unit * SerialPort :=
  match outcomes sp with
  | Some err :: later =>
      (Throw err,
       {| path := path sp; baud := baud sp; written := written sp;
          outcomes := later |})
  | None :: later =>
      (Normal tt,
       {| path := path sp; baud := baud sp;
          written := List.app (written sp) [buffer]; outcomes := later |})
  | [] =>
      (Normal tt,
       {| path := path sp; baud := baud sp;
          written := List.app (written sp) [buffer]; outcomes := [] |})
  end.

(** [sendCommand(command)] *)
Definition sendCommand (command : list Z) : Action unit :=
  fun this =>
    match isConnected this, port this with
    | true, Some sp =>
        let (r, sp') := write (bufferFrom command) sp in
        (r, {| portPath := portPath this; baudRate := baudRate this;
               port := Some sp'; isConnected := isConnected this |})
    | _, _ => (Throw "Printer not connected", this)
    end.

(** The ['open'] and ['error'] events of the port. *)
Definition onOpen (this : t) : t :=
  snd (sendCommand COMMANDS.INIT
         {| portPath := portPath this; baudRate := baudRate this;
            port := port this; isConnected := true |}).

Definition onError (this : t) : t :=
  {| portPath := portPath this; baudRate := baudRate this;
     port := port this; isConnected := false |}.

(** The printer is connected and no write to come fails. *)
Definition ready (this : t) : bool :=
  isConnected this &&
  match port this with
  | Some sp =>
      forallb (fun o => match o with None => true | Some _ => false end)
              (outcomes sp)
  | None => false
  end.

(** The buffers that went to the port, oldest first. *)
Definition output (this : t) : list (list Z) :=
  match port this with
  | Some sp => written sp
  | None => []
  end.

Record Options : Type := mkOptions {
  bold : bool;
  center : bool;
  doubleSize : bool
}.

(** [{}] with the defaults of [printText]. *)
Definition plain : Options :=
  {| bold := false; center := false; doubleSize := false |}.

(** [printText(text, options = {})] *)
Definition printText (text : string) (options : Options) : Action unit :=
  when (center options) (sendCommand COMMANDS.ALIGN_CENTER) ;;
  when (bold options) (sendCommand COMMANDS.BOLD_ON) ;;
  when (doubleSize options) (sendCommand COMMANDS.FONT_SIZE_DOUBLE) ;;
  sendCommand (List.app (JsString.utf8Bytes text) COMMANDS.FEED_LINE) ;;
  when (bold options) (sendCommand COMMANDS.BOLD_OFF) ;;
  when (doubleSize options) (sendCommand COMMANDS.FONT_SIZE_NORMAL) ;;
  when (center options) (sendCommand COMMANDS.ALIGN_LEFT).

(** The account snapshot that [printReceipt] takes apart. *)
Record ReceiptData : Type := mkReceiptData {
  name : string;
  accountType : string;
  balance : Number;
  cardNumber : string;
  timestamp : string
}.

Section Receipt.
Context {host : Host}.

Definition centered : Options :=
  {| bold := false; center := true; doubleSize := false |}.

(** [printReceipt(data)]; the [catch] logs and throws the error
    again. *)
Definition printReceipt (data : ReceiptData) : Action unit :=
  sendCommand COMMANDS.INIT ;;
  printText "================================" centered ;;
  printText "MINI ATM RECEIPT"
    {| bold := true; center := true; doubleSize := true |} ;;
  printText "================================" centered ;;
  printText "" plain ;;
  printText ("Name: " ++ name data)
    {| bold := true; center := false; doubleSize := false |} ;;
  printText ("Account: " ++ accountType data) plain ;;
  printText
    ("Card: " ++ JsString.trim (JsString.spaceDigitGroups (cardNumber data)))
    plain ;;
  printText "" plain ;;
  printText "--------------------------------" centered ;;
  printText "AVAILABLE BALANCE"
    {| bold := true; center := true; doubleSize := false |} ;;
  printText ("PHP " ++ toFixed (balance data) 2)
    {| bold := false; center := true; doubleSize := true |} ;;
  printText "--------------------------------" centered ;;
  printText "" plain ;;
  printText ("Date: " ++ toLocaleString (timestamp data)) centered ;;
  printText "" plain ;;
  printText "Thank you for using Mini ATM" centered ;;
  printText "Raspberry Pi 4B Simulator" centered ;;
  printText "================================" centered ;;
  printText "" plain ;;
  printText "" plain ;;
  printText "" plain ;;
  sendCommand COMMANDS.CUT_PAPER.

(** A connected printer that has not written anything yet. *)
Definition blank : t :=
  {| portPath := "/dev/serial0"; baudRate := 19200;
     port := Some {| path := "/dev/serial0"; baud := 19200;
                     written := []; outcomes := [] |};
     isConnected := true |}.

(** The segments that one invocation on [this] sends to the port. *)
Definition sentBy (data : ReceiptData) (this : t) : list (list Z) :=
  skipn (length (output this)) (output (snd (printReceipt data this))).

(** The receipt as the sequence of segments that a fresh printer
    receives. *)
Definition format (data : ReceiptData) : list (list Z) :=
  output (snd (printReceipt data blank)).

End Receipt.

(** On a printer that is ready, [c] completes, leaves it ready and
    sends exactly [segments]. *)
Definition emits (c : Action unit) (segments : list (list Z)) : Prop :=
  forall this,
    ready this = true ->
    exists this',
      c this = (Normal tt, this') /\ ready this' = true /\
      output this' = List.app (output this) segments.

(** Whatever the state of the printer, [c] sends a prefix of [segments]
    and nothing else, all of it exactly when it completes, and leaves
    [isConnected] alone. *)
Definition sends (c : Action unit) (segments : list (list Z)) : Prop :=
  forall this,
    exists sent rest,
      segments = List.app sent rest
      /\ output (snd (c this)) = List.app (output this) sent
      /\ (fst (c this) = Normal tt <-> rest = [])
      /\ isConnected (snd (c this)) = isConnected this.

Section Test.
Context {host : Host}.

(** [testPrint()]; [now] is the time of the call. *)
Definition testPrint (now : string) : Action unit :=
  printText "=== PRINTER TEST ==="
    {| bold := true; center := true; doubleSize := false |} ;;
  printText "Mini ATM System" centered ;;
  printText ("Test Date: " ++ toLocaleString now) centered ;;
  printText "" plain ;;
  sendCommand COMMANDS.CUT_PAPER.

End Test.

End PrinterService.

(** ** backend/server.js *)

Module Server.

(** The module-level variables [usersDatabase.users], [rfidReader] and
    [printerService]; the last two stay unassigned when the constructor
    threw. *)
Record t : Type := mkServer {
  usersDatabase : list User;
  rfidReader : option RFIDReader.t;
  printerService : option PrinterService.t
}.

(** What the process finds when it starts: the parsed [data/users.json]
    (or the error of reading or parsing it), the RC522 driver, and the
    constructor of serial ports. *)
Record Environment : Type := mkEnvironment {
  usersFile : Completion (list User);
  driver : option (Completion RFIDReader.MFRC522);
  openPort : string -> Z -> Completion PrinterService.SerialPort
}.

(** [let x; try { x = c } catch (error) { console.warn(...) }] *)
Definition tryAssign {A} (c : Completion A) : option A :=
  match c with
  | Normal a => Some a
  | Throw _ => None
  end.

(** The top-level statements that load the database and construct the
    services. *)
Definition start (env : Environment) : t :=
  {| usersDatabase :=
       match usersFile env with
       | Normal users => users
       | Throw _ => []
       end;
     rfidReader := tryAssign (RFIDReader.new (driver env));
     printerService :=
       tryAssign (PrinterService.new (openPort env) None None) |}.

Record Response : Type := mkResponse {
  status : Z;
  body : Json
}.

(** [res.json(body)] and [res.status(code).json(body)]. *)
Definition json (body : Json) : Response := {| status := 200; body := body |}.
Definition statusJson (code : Z) (body : Json) : Response :=
  {| status := code; body := body |}.

Definition services (srv : t) : Json :=
  JObj [ ("rfid", JBool (truthyObject (rfidReader srv)));
         ("printer", JBool (truthyObject (printerService srv))) ].

(** [GET /api/health]; [now] is [new Date().toISOString()]. *)
Definition getHealth (now : string) (srv : t) : Response * t :=
  (json (JObj [ ("status", JStr "ok"); ("services", services srv);
                ("timestamp", JStr now) ]),
   srv).

(** [GET /api/user/:uid] *)
Definition getUser (uid' : string) (srv : t) : Response * t :=
  match find (fun u => String.eqb (uid u) uid') (usersDatabase srv) with
  | Some user => (json (jsonOfUser user), srv)
  | None => (statusJson 404 (JObj [ ("error", JStr "User not found") ]), srv)
  end.

Definition withReader (srv : t) (r : RFIDReader.t) : t :=
  {| usersDatabase := usersDatabase srv; rfidReader := Some r;
     printerService := printerService srv |}.

Definition withPrinter (srv : t) (p : PrinterService.t) : t :=
  {| usersDatabase := usersDatabase srv; rfidReader := rfidReader srv;
     printerService := Some p |}.

(** [POST /api/rfid/scan] *)
Definition postScan (now : string) (srv : t) : Response * t :=
  match rfidReader srv with
  | None =>
      (statusJson 503 (JObj [ ("error", JStr "RFID reader not available") ]),
       srv)
  | Some r =>
      let (result, r') := RFIDReader.readCard r in
      match result with
      | Normal uid =>
          (json (JObj [ ("uid", jsonOfOptString uid);
                        ("timestamp", JStr now) ]),
           withReader srv r')
      | Throw message =>
          (statusJson 500 (JObj [ ("error", JStr ("Scan failed: " ++ message)) ]),
           withReader srv r')
      end
  end.

(** [object.key] on parsed JSON; the last of several equal keys is the
    one [JSON.parse] keeps. *)
Fixpoint lookup (key : string) (fields : list (string * Json))
  : option Json :=
  match fields with
  | [] => None
  | (k, v) :: rest =>
      match lookup key rest with
      | Some v' => Some v'
      | None => if String.eqb k key then Some v else None
      end
  end.

Definition property (key : string) (j : Json) : option Json :=
  match j with
  | JObj fields => lookup key fields
  | _ => None
  end.

(** [const { name, accountType, balance, cardNumber } = req.body] with
    the time stamp added, for a body whose four fields are there and
    are strings and a number as in an account record.  On other
    bodies the hardware branch of [postPrint] is not modelled. *)
Definition receiptData (body : Json) (now : string)
  : option PrinterService.ReceiptData :=
  match property "name" body, property "accountType" body,
        property "balance" body, property "cardNumber" body with
  | Some (JStr n), Some (JStr a), Some (JNum b), Some (JStr c) =>
      Some {| PrinterService.name := n; PrinterService.accountType := a;
              PrinterService.balance := b; PrinterService.cardNumber := c;
              PrinterService.timestamp := now |}
  | _, _, _, _ => None
  end.

Inductive Request : Type :=
| GetHealth
| GetUser (uid : string)
| PostScan
| PostPrint (reqBody : Json).

Section Print.
Context {host : Host}.

(** [POST /api/print].  [reqBody] is [req.body] as the [express.json()]
    middleware left it (see [expressJson] below): an object or an
    array. *)
Definition postPrint (reqBody : Json) (now : string) (srv : t)
  : option (Response * t) :=
  match printerService srv with
  | None =>
      Some (json (JObj [ ("success", JBool true);
                         ("message", JStr "Mock print (no hardware available)");
                         ("data", reqBody) ]),
            srv)
  | Some printer =>
      match receiptData reqBody now with
      | None => None
      | Some data =>
          let (result, printer') :=
            PrinterService.printReceipt data printer in
          match result with
          | Normal _ =>
              Some (json (JObj [ ("success", JBool true);
                                 ("message", JStr "Receipt printed") ]),
                    withPrinter srv printer')
          | Throw message =>
              Some (statusJson 500
                      (JObj [ ("error", JStr ("Print failed: " ++ message)) ]),
                    withPrinter srv printer')
          end
      end
  end.

(** The routes of the application. *)
Definition handle (req : Request) (now : string) (srv : t)
  : option (Response * t) :=
  match req with
  | GetHealth => Some (getHealth now srv)
  | GetUser uid => Some (getUser uid srv)
  | PostScan => Some (postScan now srv)
  | PostPrint reqBody => postPrint reqBody now srv
  end.

End Print.

(** *** The [express.json()] middleware and [res.json] *)

(** The body of a request as [express.json()] meets it.
    - [Skipped]: there is no body, the body is empty, or its
      [Content-Type] is not [application/json]; nothing is parsed.
    - [Unreadable status]: the body cannot be read: it is too large (413),
      its charset or encoding is not supported (415), or the request was
      aborted (400).
    - [Text parsed]: JSON content, with what [JSON.parse] makes of the
      text. *)
Inductive Submission : Type :=
| Skipped
| Unreadable (status : Z)
| Text (parsed : Completion Json).

Definition isObjectOrArray (j : Json) : bool :=
  match j with
  | JObj _ | JArr _ => true
  | _ => false
  end.

(** [app.use(express.json())] with its defaults, as in Express 4: the
    [req.body] that the handlers see, or the status of the error that
    ends the request before any handler runs.  In strict mode a text
    that does not start with an opening brace or bracket is refused, so a
    string, a number, [true], [false] or [null] is. *)
Definition expressJson (s : Submission) : Z + Json :=
  match s with
  | Skipped => inr (JObj [])
  | Unreadable status => inl status
  | Text (Normal j) => if isObjectOrArray j then inr j else inl 400
  | Text (Throw _) => inl 400
  end.

(** The number is [-0]. *)
Definition negativeZero (n : Number) : bool :=
  PrimFloat.is_zero n && PrimFloat.get_sign n.

(** What the client reads of a value sent with [res.json]:
    [JSON.stringify] writes [NaN] and the infinities as [null] and [-0]
    as [0]. *)
Fixpoint written (j : Json) : Json :=
  match j with
  | JNum n =>
      if PrimFloat.is_finite n
      then if negativeZero n then JNum PrimFloat.zero else JNum n
      else JNull
  | JArr items => JArr (map written items)
  | JObj fields => JObj (map (fun kv => (fst kv, written (snd kv))) fields)
  | JNull => JNull
  | JBool b => JBool b
  | JStr s => JStr s
  end.

(** Every number in [j] is finite and is not [-0]. *)
Fixpoint plain (j : Json) : bool :=
  match j with
  | JNum n => PrimFloat.is_finite n && negb (negativeZero n)
  | JArr items => forallb plain items
  | JObj fields => forallb (fun kv => plain (snd kv)) fields
  | JNull => true
  | JBool _ => true
  | JStr _ => true
  end.

(** The answer to a request: of a handler, or of Express's error handler
    with the status of the middleware's error. *)
Inductive Reply : Type :=
| Answered (response : Response)
| Refused (status : Z).

Section PrintRoute.
Context {host : Host}.

(** A [POST /api/print] request from the middleware on. *)
Definition postPrintRoute (s : Submission) (now : string) (srv : t)
  : option (Reply * t) :=
  match expressJson s with
  | inl status => Some (Refused status, srv)
  | inr reqBody =>
      match postPrint reqBody now srv with
      | Some (response, srv') => Some (Answered response, srv')
      | None => None
      end
  end.

End PrintRoute.

(** *** The WebSocket endpoint [/rfid] *)

(** One client connection: the messages sent on it, oldest first, and
    [rfidInterval] (whether the polling timer is set). *)
Record Socket : Type := mkSocket {
  sent : list Json;
  rfidInterval : bool
}.

Definition connected (srv : t) : Json :=
  JObj [ ("type", JStr "connected");
         ("message", JStr "WebSocket connection established");
         ("services", services srv) ].

Definition card_detected (uid now : string) : Json :=
  JObj [ ("type", JStr "card_detected"); ("uid", JStr uid);
         ("timestamp", JStr now) ].

(** [wss.on('connection', ...)] up to the registration of the
    handlers. *)
Definition onConnection (srv : t) : Socket :=
  {| sent := [connected srv];
     rfidInterval := truthyObject (rfidReader srv) |}.

(** One run of the interval callback, [now] being
    [new Date().toISOString()]. *)
Definition onInterval (now : string) (srv : t) (ws : Socket) : t * Socket :=
  if rfidInterval ws then
    match rfidReader srv with
    | Some r =>
        let (result, r') := RFIDReader.readCard r in
        match result with
        | Normal (Some uid) =>
            if truthyString (Some uid)
            then (withReader srv r',
                  {| sent := List.app (sent ws) [card_detected uid now];
                     rfidInterval := rfidInterval ws |})
            else (withReader srv r', ws)
        | Normal None => (withReader srv r', ws)
        | Throw _ => (withReader srv r', ws)
        end
    | None => (srv, ws)
    end
  else (srv, ws).

(** [ws.on('close', ...)] *)
Definition onClose (ws : Socket) : Socket :=
  {| sent := sent ws; rfidInterval := false |}.

Inductive Event : Type :=
| Interval (now : string)
| Close.

(** A connection from its opening through the events [events]. *)
Fixpoint events (es : list Event) (srv : t) (ws : Socket) : t * Socket :=
  match es with
  | [] => (srv, ws)
  | Interval now :: later =>
      let (srv', ws') := onInterval now srv ws in events later srv' ws'
  | Close :: later => events later srv (onClose ws)
  end.

Definition connection (es : list Event) (srv : t) : t * Socket :=
  events es srv (onConnection srv).

Definition isCardDetected (uid : string) (message : Json) : bool :=
  match message with
  | JObj (("type", JStr "card_detected") :: ("uid", JStr u) :: _) =>
      String.eqb u uid
  | _ => false
  end.

(** The number of runs of the interval callback among [es]. *)
Definition ticks (es : list Event) : nat :=
  length (filter (fun e => match e with Interval _ => true | Close => false end)
                 es).

End Server.

(** ** src/hooks/useATMConnection.ts *)

Module UseATMConnection.

Record WebSocket : Type := mkWebSocket {
  url : string;
  closed : bool
}.

(** The five state variables of the hook. *)
Record State : Type := mkState {
  isConnected : bool;
  isScanning : bool;
  currentUser : option User;
  error : option string;
  ws : option WebSocket
}.

Definition initial : State :=
  {| isConnected := false; isScanning := false; currentUser := None;
     error := None; ws := None |}.

Definition setIsConnected (b : bool) (st : State) : State :=
  {| isConnected := b; isScanning := isScanning st;
     currentUser := currentUser st; error := error st; ws := ws st |}.
Definition setIsScanning (b : bool) (st : State) : State :=
  {| isConnected := isConnected st; isScanning := b;
     currentUser := currentUser st; error := error st; ws := ws st |}.
Definition setCurrentUser (u : option User) (st : State) : State :=
  {| isConnected := isConnected st; isScanning := isScanning st;
     currentUser := u; error := error st; ws := ws st |}.
Definition setError (e : option string) (st : State) : State :=
  {| isConnected := isConnected st; isScanning := isScanning st;
     currentUser := currentUser st; error := e; ws := ws st |}.
Definition setWs (w : option WebSocket) (st : State) : State :=
  {| isConnected := isConnected st; isScanning := isScanning st;
     currentUser := currentUser st; error := error st; ws := w |}.

(** The answer to an HTTP request: [fetch] rejects, or it resolves to a
    response with its [ok] flag and the outcome of [response.json()]. *)
Inductive Fetched (A : Type) : Type :=
| Rejected (message : string)
| Resolved (ok : bool) (json : Completion A).
Arguments Rejected {A} message.
Arguments Resolved {A} ok json.

(** What the world answers during one operation of the hook: the
    [k]-th call of [loadMockUsers], [Math.random()] scaled to an index,
    and the three backend routes. *)
Record World : Type := mkWorld {
  loadMockUsers : nat -> Completion (list User);
  randomIndex : nat;
  getUser : string -> Fetched User;
  postScan : Fetched (option string);
  postPrint : Fetched unit
}.

(** A message of the server as [onmessage] sees it after
    [JSON.parse]. *)
Inductive Message : Type :=
| CardDetected (uid : option string)
| OtherType
| Unparsable.

(** [`${uid}`] for a UID that may be [null]. *)
Definition uidText (uid : option string) : string :=
  match uid with Some s => s | None => "null" end.

Section Hook.
Variable USE_MOCK_DATA : bool.

(** [connect()]; [socket] is the outcome of [new WebSocket(...)]. *)
Definition connect (socket : Completion WebSocket) (st : State) : State :=
  if USE_MOCK_DATA then setError None (setIsConnected true st)
  else
    match socket with
    | Normal websocket => setWs (Some websocket) st
    | Throw _ =>
        setIsConnected true
          (setError (Some "Failed to connect to backend. Using demo mode.") st)
    end.

(** [disconnect()] *)
Definition disconnect (st : State) : State :=
  let st1 :=
    match ws st with
    | Some _ => setWs None st
    | None => st
    end in
  setCurrentUser None (setIsConnected false st1).

(** The [catch] branch of [fetchUserData]. *)
Definition fetchFailed (st : State) : State :=
  setCurrentUser None (setError (Some "Failed to load user data") st).

(** [fetchUserData(uid)]; [call] numbers the call of [loadMockUsers]
    within the operation. *)
Definition fetchUserData (w : World) (call : nat) (uid' : string)
           (st : State) : State :=
  if USE_MOCK_DATA then
    match loadMockUsers w call with
    | Normal users =>
        match find (fun u => String.eqb (uid u) uid') users with
        | Some user => setError None (setCurrentUser (Some user) st)
        | None =>
            setCurrentUser None (setError (Some "Card not recognized") st)
        end
    | Throw _ => fetchFailed st
    end
  else
    match getUser w uid' with
    | Resolved true (Normal user) =>
        setError None (setCurrentUser (Some user) st)
    | Resolved true (Throw _) => fetchFailed st
    | Resolved false _ => fetchFailed st
    | Rejected _ => fetchFailed st
    end.

(** The [catch] branch of [scanCard]. *)
Definition scanFailed (st : State) : State :=
  setError (Some "Card scan failed. Please try again.") st.

(** [scanCard()] *)
Definition scanCard (w : World) (st : State) : State :=
  let st1 := setError None (setIsScanning true st) in
  let st2 :=
    if USE_MOCK_DATA then
      match loadMockUsers w 0 with
      | Normal users =>
          match nth_error users (randomIndex w) with
          | Some randomUser => fetchUserData w 1 (uid randomUser) st1
          | None => scanFailed st1
          end
      | Throw _ => scanFailed st1
      end
    else
      match postScan w with
      | Resolved true (Normal data_uid) =>
          fetchUserData w 0 (uidText data_uid) st1
      | Resolved true (Throw _) => scanFailed st1
      | Resolved false _ => scanFailed st1
      | Rejected _ => scanFailed st1
      end in
  setIsScanning false st2.

(** [demoLogin()] *)
Definition demoLogin (w : World) (st : State) : State :=
  let st1 := setError None (setIsScanning true st) in
  let st2 :=
    match loadMockUsers w 0 with
    | Normal users =>
        match users with
        | firstUser :: _ => fetchUserData w 1 (uid firstUser) st1
        | [] => setError (Some "No demo users available") st1
        end
    | Throw _ => setError (Some "Demo login failed") st1
    end in
  setIsScanning false st2.

(** [printReceipt()] *)
Definition printReceipt (w : World) (st : State) : State :=
  match currentUser st with
  | None => setError (Some "No active session") st
  | Some _ =>
      if USE_MOCK_DATA then st
      else
        match postPrint w with
        | Resolved true _ => st
        | Resolved false _ => setError (Some "Failed to print receipt") st
        | Rejected _ => setError (Some "Failed to print receipt") st
        end
  end.

(** [logout()] *)
Definition logout (st : State) : State :=
  setError None (setCurrentUser None st).

(** The handlers that [connect] installs on the socket. *)
Definition onopen (st : State) : State :=
  setError None (setIsConnected true st).

Definition onmessage (m : Message) (w : World) (st : State) : State :=
  match m with
  | CardDetected data_uid => fetchUserData w 0 (uidText data_uid) st
  | OtherType => st
  | Unparsable => st
  end.

Definition onerror (st : State) : State :=
  setIsConnected false
    (setError (Some "Connection error. Switching to demo mode.") st).

Definition onclose (st : State) : State := setIsConnected false st.

(** Everything that changes the state of the hook. *)
Inductive Operation : Type :=
| Connect (socket : Completion WebSocket)
| Disconnect
| FetchUserData (uid : string) (w : World)
| ScanCard (w : World)
| DemoLogin (w : World)
| PrintReceipt (w : World)
| Logout
| OnOpen
| OnMessage (m : Message) (w : World)
| OnError
| OnClose.

Definition step (op : Operation) (st : State) : State :=
  match op with
  | Connect socket => connect socket st
  | Disconnect => disconnect st
  | FetchUserData uid w => fetchUserData w 0 uid st
  | ScanCard w => scanCard w st
  | DemoLogin w => demoLogin w st
  | PrintReceipt w => printReceipt w st
  | Logout => logout st
  | OnOpen => onopen st
  | OnMessage m w => onmessage m w st
  | OnError => onerror st
  | OnClose => onclose st
  end.

(** The lookup that [fetchUserData(uid)] makes, as its answer: the
    account record found, or nothing. *)
Definition lookup (w : World) (call : nat) (uid' : string) : option User :=
  if USE_MOCK_DATA then
    match loadMockUsers w call with
    | Normal users => find (fun u => String.eqb (uid u) uid') users
    | Throw _ => None
    end
  else
    match getUser w uid' with
    | Resolved true (Normal user) => Some user
    | _ => None
    end.

(** The call [fetchUserData(uid)] that an operation ends with, when it
    gets that far: the world, the number of the [loadMockUsers] call
    and the UID. *)
Definition lookupMade (op : Operation) : option (World * nat * string) :=
  match op with
  | FetchUserData uid w => Some (w, 0%nat, uid)
  | ScanCard w =>
      if USE_MOCK_DATA then
        match loadMockUsers w 0 with
        | Normal users =>
            match nth_error users (randomIndex w) with
            | Some randomUser => Some (w, 1%nat, uid randomUser)
            | None => None
            end
        | Throw _ => None
        end
      else
        match postScan w with
        | Resolved true (Normal data_uid) =>
            Some (w, 0%nat, uidText data_uid)
        | _ => None
        end
  | DemoLogin w =>
      match loadMockUsers w 0 with
      | Normal (firstUser :: _) => Some (w, 1%nat, uid firstUser)
      | _ => None
      end
  | OnMessage (CardDetected data_uid) w =>
      Some (w, 0%nat, uidText data_uid)
  | _ => None
  end.

Definition endsSession (op : Operation) : bool :=
  match op with
  | Logout | Disconnect => true
  | _ => false
  end.

End Hook.

(** The body that [printReceipt] posts to [/api/print] for the current
    user. *)
Definition printBody (user : User) : Json :=
  JObj [ ("uid", JStr (uid user)); ("name", JStr (name user));
         ("accountType", JStr (accountType user));
         ("balance", JNum (balance user));
         ("cardNumber", JStr (cardNumber user)) ].

End UseATMConnection.

(** ** src/pages/Index.tsx *)

Module Index.

(** What the page shows. *)
Inductive Screen : Type :=
| WelcomeScreen (isConnected isScanning : bool)
| UserDashboard (user : User).

Definition render (st : UseATMConnection.State) : Screen :=
  match UseATMConnection.currentUser st with
  | None =>
      WelcomeScreen (UseATMConnection.isConnected st)
                    (UseATMConnection.isScanning st)
  | Some user => UserDashboard user
  end.

Record Toast : Type := mkToast {
  title : string;
  description : string
}.

(** [handlePrint()]: the hook's [printReceipt], then the toast. *)
Definition handlePrint (USE_MOCK_DATA : bool) (w : UseATMConnection.World)
           (st : UseATMConnection.State)
  : UseATMConnection.State * list Toast :=
  (UseATMConnection.printReceipt USE_MOCK_DATA w st,
   [ {| title := "Receipt Printed";
        description :=
          "Your transaction receipt has been printed successfully." |} ]).

End Index.

(** ** The encoding of a UID in the words of the specification *)

Module UidFormat.

(** The upper-case hexadecimal digit of value [d]. *)
Definition digit (d : Z) : ascii :=
  nth (Z.to_nat d) (JsString.toList "0123456789ABCDEF") "0"%char.

(** A byte as exactly two characters, zero-padded. *)
Definition pair (byte : Z) : string :=
  String (digit (byte / 16)) (String (digit (byte mod 16)) EmptyString).

Definition encode (data : list Z) : string :=
  String.concat "" (map pair data).

Definition isUpperHex (c : ascii) : bool :=
  let n := N_of_ascii c in
  (((48 <=? n) && (n <=? 57)) || ((65 <=? n) && (n <=? 70)))%N.

Definition isByte (b : Z) : Prop := 0 <= b < 256.

End UidFormat.

(** ** Sample data *)

Module Sample.

(** The account of the README. *)
Definition juan : User :=
  {| uid := "A1B2C3D4"; cardNumber := "4532 1234 5678 9012";
     name := "Juan Dela Cruz"; accountType := "Savings";
     balance := 15420.5%float; transactions := [] |}.

Definition maria : User :=
  {| uid := "E5F6G7H8"; cardNumber := "5412 7534 8821 3344";
     name := "Maria Santos"; accountType := "Checking";
     balance := 8750%float;
     transactions :=
       [ {| tx_date := "2025-10-20"; tx_type := "deposit";
            tx_amount := 500%float; tx_balance := 8750%float |} ] |}.

Definition users : list User := [juan; maria].

(** A card with UID bytes A1 B2 C3 D4 in the field. *)
Definition card : RFIDReader.Access :=
  {| RFIDReader.reset := Normal tt; RFIDReader.findCard := Normal true;
     RFIDReader.getUid := Normal (true, [0xA1; 0xB2; 0xC3; 0xD4]) |}.

Definition cardReader (accesses : list RFIDReader.Access) : RFIDReader.t :=
  {| RFIDReader.reader := Some {| RFIDReader.answers := accesses |};
     RFIDReader.isInitialized := true |}.

Definition serial : PrinterService.SerialPort :=
  {| PrinterService.path := "/dev/serial0"; PrinterService.baud := 19200;
     PrinterService.written := []; PrinterService.outcomes := [] |}.

Definition printer : PrinterService.t :=
  {| PrinterService.portPath := "/dev/serial0";
     PrinterService.baudRate := 19200;
     PrinterService.port := Some serial;
     PrinterService.isConnected := true |}.

(** A second card, with UID bytes E5 F6 07 18. *)
Definition otherCard : RFIDReader.Access :=
  {| RFIDReader.reset := Normal tt; RFIDReader.findCard := Normal true;
     RFIDReader.getUid := Normal (true, [0xE5; 0xF6; 0x07; 0x18]) |}.

(** The loop of [startContinuousRead] on a reader that has the card in
    its field for seven polls. *)
Definition polling : RFIDReader.Polling :=
  {| RFIDReader.self := cardReader (repeat card 7);
     RFIDReader.onCardDetected := fun _ _ => Normal tt;
     RFIDReader.interval := 1000;
     RFIDReader.lastUid := None; RFIDReader.timeouts := [] |}.

(** The same printer when the third write to come fails. *)
Definition jammed : PrinterService.t :=
  {| PrinterService.portPath := "/dev/serial0";
     PrinterService.baudRate := 19200;
     PrinterService.port :=
       Some {| PrinterService.path := "/dev/serial0";
               PrinterService.baud := 19200;
               PrinterService.written := [];
               PrinterService.outcomes := [None; None; Some "EIO"] |};
     PrinterService.isConnected := true |}.

(** An access during which the SPI bus fails. *)
Definition busError : RFIDReader.Access :=
  {| RFIDReader.reset := Throw "SPI transfer failed";
     RFIDReader.findCard := Normal false;
     RFIDReader.getUid := Normal (false, []) |}.

(** A machine that is not a Raspberry Pi: no driver, no serial port. *)
Definition laptop : Server.Environment :=
  {| Server.usersFile := Normal [juan; maria];
     Server.driver := None;
     Server.openPort := fun _ _ => Throw "Error: No such file or directory" |}.

(** The client in demo mode: the mock users load, nothing else answers. *)
Definition demoWorld : UseATMConnection.World :=
  {| UseATMConnection.loadMockUsers := fun _ => Normal [juan; maria];
     UseATMConnection.randomIndex := 1;
     UseATMConnection.getUser := fun _ => UseATMConnection.Rejected "offline";
     UseATMConnection.postScan := UseATMConnection.Rejected "offline";
     UseATMConnection.postPrint := UseATMConnection.Rejected "offline" |}.

(** A server without hardware, and one with a reader that sees the
    card on two polls in a row. *)
Definition bare : Server.t :=
  {| Server.usersDatabase := users; Server.rfidReader := None;
     Server.printerService := None |}.

Definition tapped : Server.t :=
  {| Server.usersDatabase := users;
     Server.rfidReader := Some (cardReader [card; card]);
     Server.printerService := None |}.

(** A host that prints every amount and every date the same way. *)
Definition host : Host :=
  {| toFixed := fun _ _ => "15420.50";
     toLocaleString := fun _ => "10/21/2025, 10:30:00 AM" |}.

Definition snapshot : PrinterService.ReceiptData :=
  {| PrinterService.name := "Juan Dela Cruz";
     PrinterService.accountType := "Savings";
     PrinterService.balance := 15420.5%float;
     PrinterService.cardNumber := "4532123456789012";
     PrinterService.timestamp := "2025-10-21T10:30:00.000Z" |}.

End Sample.

(** * Properties *)

(** ** Auxiliary facts *)

Lemma jsonOfUser_injective (u v : User) : jsonOfUser u = jsonOfUser v -> u = v.
Proof.
  destruct u as [u1 u2 u3 u4 u5 u6], v as [v1 v2 v3 v4 v5 v6].
  unfold jsonOfUser. cbn. intros H. injection H as -> -> -> -> -> Ht.
  f_equal.
  revert v6 Ht. induction u6 as [|a l IH]; intros [|b m] Ht; cbn in Ht;
    try discriminate; try reflexivity.
  injection Ht as H1 H2 H3 H4 Hl. f_equal.
  - destruct a, b. cbn in *. congruence.
  - now apply IH.
Qed.

Lemma find_first {A} (p : A -> bool) (l : list A) (a : A) :
  In a l -> p a = true -> exists b, find p l = Some b.
Proof.
  induction l as [|x l IH]; cbn; [easy|].
  intros [-> | Hin] Hp.
  - rewrite Hp. eauto.
  - destruct (p x); eauto.
Qed.

Lemma unique_key {A B} (f : A -> B) (l : list A) (a b : A) :
  NoDup (map f l) -> In a l -> In b l -> f a = f b -> a = b.
Proof.
  induction l as [|x l IH]; cbn; [easy|].
  intros Hnd Ha Hb Hf. inversion Hnd as [|? ? Hnotin Hnd']; subst.
  destruct Ha as [-> | Ha], Hb as [-> | Hb]; auto.
  - exfalso. apply Hnotin. rewrite Hf. now apply in_map.
  - exfalso. apply Hnotin. rewrite <- Hf. now apply in_map.
Qed.

(** ** The session service: [GET /api/user/:uid] *)

(** C1.  A UID of the store resolves to a stored record with that UID, the
    one and only such record when UIDs are unique keys, sent with status
    200; any other string gives 404 with [{error: "User not found"}]; the
    server is left as it was in both cases. *)
Theorem getUser_resolves (srv : Server.t) (key : string) :
  (forall user, In user (Server.usersDatabase srv) -> uid user = key ->
     exists found,
       In found (Server.usersDatabase srv) /\ uid found = key /\
       Server.getUser key srv = (Server.json (jsonOfUser found), srv) /\
       (NoDup (map uid (Server.usersDatabase srv)) -> found = user))
  /\
  ((forall user, In user (Server.usersDatabase srv) -> uid user <> key) ->
     Server.getUser key srv =
       (Server.statusJson 404 (JObj [ ("error", JStr "User not found") ]), srv)).
Proof.
  split.
  - intros user Hin Hkey.
    destruct (find_first (fun u => String.eqb (uid u) key) _ user Hin)
      as [found Hfind].
    { now apply String.eqb_eq. }
    exists found. apply find_some in Hfind as Hsome.
    destruct Hsome as [Hfin Heq]. apply String.eqb_eq in Heq.
    repeat split; auto.
    + unfold Server.getUser. now rewrite Hfind.
    + intros Hnd. apply (unique_key uid _ _ _ Hnd Hfin Hin). congruence.
  - intros Hnone. unfold Server.getUser.
    destruct (find _ _) as [u|] eqn:Hfind; [|reflexivity].
    apply find_some in Hfind as [Hin Heq]. apply String.eqb_eq in Heq.
    now destruct (Hnone u Hin).
Qed.

(** The two scenarios of the specification on the sample store. *)
Lemma getUser_resolves_witness :
  Server.getUser "A1B2C3D4" Sample.bare
    = (Server.json (jsonOfUser Sample.juan), Sample.bare)
  /\ Server.getUser "ZZZZZZZZ" Sample.bare
    = (Server.statusJson 404 (JObj [ ("error", JStr "User not found") ]),
       Sample.bare).
Proof.
  split.
  - destruct (proj1 (getUser_resolves Sample.bare "A1B2C3D4") Sample.juan)
      as [found [_ [_ [Hget Huniq]]]].
    + cbn. auto.
    + reflexivity.
    + rewrite Hget. rewrite Huniq; [reflexivity|].
      cbn. repeat constructor; cbn; intuition discriminate.
  - apply (proj2 (getUser_resolves Sample.bare "ZZZZZZZZ")).
    cbn. intros user [<- | [<- | []]]; cbn; discriminate.
Defined.

(** ** The card reader: [readCard] *)

(** A read uses up one answer of the driver, whatever comes of it. *)
Lemma readCard_one_access (this : RFIDReader.t) (dev : RFIDReader.MFRC522) :
  RFIDReader.isInitialized this = true ->
  RFIDReader.reader this = Some dev ->
  exists dev',
    RFIDReader.reader (snd (RFIDReader.readCard this)) = Some dev' /\
    RFIDReader.answers dev' = tl (RFIDReader.answers dev) /\
    RFIDReader.isInitialized (snd (RFIDReader.readCard this)) = true.
Proof.
  intros Hinit Hdev. unfold RFIDReader.readCard. rewrite Hinit, Hdev.
  unfold RFIDReader.nextAccess.
  destruct dev as [[|a rest]]; cbn.
  - exists {| RFIDReader.answers := [] |}.
    cbn. auto.
  - exists {| RFIDReader.answers := rest |}.
    destruct (RFIDReader.reset a); cbn; auto.
    destruct (RFIDReader.findCard a) as [[|]|]; cbn; auto.
    destruct (RFIDReader.getUid a) as [[[|] data]|]; cbn; auto.
Qed.

Section UidEncoding.

Lemma byte_cases (P : Z -> Prop) :
  (forall n, In n (seq 0 256) -> P (Z.of_nat n)) ->
  forall b, UidFormat.isByte b -> P b.
Proof.
  intros H b [Hlo Hhi]. rewrite <- (Z2Nat.id b Hlo). apply H.
  apply in_seq. lia.
Qed.

Lemma hex_is_pair (b : Z) :
  UidFormat.isByte b ->
  JsString.padStart 2 "0" (JsString.toUpperCase (JsString.toString16 b))
    = UidFormat.pair b.
Proof.
  apply (byte_cases
           (fun b => JsString.padStart 2 "0"
                       (JsString.toUpperCase (JsString.toString16 b))
                     = UidFormat.pair b)).
  assert (Hall : forallb
                   (fun n => String.eqb
                      (JsString.padStart 2 "0"
                         (JsString.toUpperCase
                            (JsString.toString16 (Z.of_nat n))))
                      (UidFormat.pair (Z.of_nat n)))
                   (seq 0 256) = true) by (vm_compute; reflexivity).
  intros n Hn. apply String.eqb_eq.
  exact (proj1 (forallb_forall _ _) Hall n Hn).
Qed.

Lemma pair_upper_hex (b : Z) :
  UidFormat.isByte b ->
  forallb UidFormat.isUpperHex (JsString.toList (UidFormat.pair b)) = true.
Proof.
  apply (byte_cases
           (fun b => forallb UidFormat.isUpperHex
                       (JsString.toList (UidFormat.pair b)) = true)).
  assert (Hall : forallb (fun n => forallb UidFormat.isUpperHex
                            (JsString.toList (UidFormat.pair (Z.of_nat n))))
                         (seq 0 256) = true) by (vm_compute; reflexivity).
  intros n Hn. exact (proj1 (forallb_forall _ _) Hall n Hn).
Qed.

Lemma join_cons (x : string) (l : list string) :
  JsString.join "" (x :: l) = x ++ JsString.join "" l.
Proof.
  destruct l; [|reflexivity].
  cbn [JsString.join String.concat].
  induction x as [|a x IH]; [reflexivity|].
  cbn [append]. now rewrite <- IH.
Qed.

Lemma concat_cons (x : string) (l : list string) :
  String.concat "" (x :: l) = x ++ String.concat "" l.
Proof.
  destruct l; [|reflexivity].
  cbn [JsString.join String.concat].
  induction x as [|a x IH]; [reflexivity|].
  cbn [append]. now rewrite <- IH.
Qed.

Lemma toList_append (x y : string) :
  JsString.toList (x ++ y) = List.app (JsString.toList x) (JsString.toList y).
Proof.
  induction x as [|a x IH]; [reflexivity|].
  cbn [append]. unfold JsString.toList in *. cbn [list_ascii_of_string List.app].
  now rewrite IH.
Qed.

Lemma uidHex_encode (data : list Z) :
  Forall UidFormat.isByte data ->
  RFIDReader.uidHex data = UidFormat.encode data.
Proof.
  unfold RFIDReader.uidHex, UidFormat.encode.
  induction 1 as [|b l Hb Hl IH]; [reflexivity|].
  change (map ?f (b :: l)) with (f b :: map f l).
  rewrite join_cons, concat_cons, IH. f_equal. now apply hex_is_pair.
Qed.

Lemma encode_length (data : list Z) :
  String.length (UidFormat.encode data) = (2 * length data)%nat.
Proof.
  unfold UidFormat.encode. induction data as [|b l IH]; [reflexivity|].
  change (map ?f (b :: l)) with (f b :: map f l).
  rewrite concat_cons. cbn [UidFormat.pair append String.length].
  rewrite IH. cbn. lia.
Qed.

Lemma encode_upper_hex (data : list Z) :
  Forall UidFormat.isByte data ->
  forallb UidFormat.isUpperHex (JsString.toList (UidFormat.encode data)) = true.
Proof.
  unfold UidFormat.encode.
  induction 1 as [|b l Hb Hl IH]; [reflexivity|].
  change (map ?f (b :: l)) with (f b :: map f l).
  rewrite concat_cons, toList_append, forallb_app, IH, pair_upper_hex; auto.
Qed.

End UidEncoding.

(** C9.  A UID that [readCard] resolves to is the encoding of the bytes
    that the driver returned, two upper-case hexadecimal characters per
    byte, so its length is twice the number of bytes, an even number. *)
Theorem readCard_uid_format (this : RFIDReader.t) (s : string) :
  fst (RFIDReader.readCard this) = Normal (Some s) ->
  exists dev data,
    RFIDReader.reader this = Some dev
    /\ RFIDReader.getUid (fst (RFIDReader.nextAccess dev)) = Normal (true, data)
    /\ s = RFIDReader.uidHex data
    /\ (Forall UidFormat.isByte data ->
        s = UidFormat.encode data
        /\ String.length s = (2 * length data)%nat
        /\ Nat.Even (String.length s)
        /\ forallb UidFormat.isUpperHex (JsString.toList s) = true).
Proof.
  unfold RFIDReader.readCard.
  destruct (RFIDReader.isInitialized this); [|discriminate].
  destruct (RFIDReader.reader this) as [dev|]; [|discriminate].
  destruct (RFIDReader.nextAccess dev) as [a dev'] eqn:Hnext.
  destruct (RFIDReader.reset a); [|discriminate].
  destruct (RFIDReader.findCard a) as [[|]|]; try discriminate.
  destruct (RFIDReader.getUid a) as [[[|] data]|] eqn:Huid; try discriminate.
  cbn. intros Hs. injection Hs as <-.
  exists dev, data. rewrite Hnext. cbn.
  repeat split; auto.
  - now apply uidHex_encode.
  - rewrite uidHex_encode by assumption. apply encode_length.
  - rewrite uidHex_encode by assumption. rewrite encode_length.
    exists (length data). lia.
  - rewrite uidHex_encode by assumption. now apply encode_upper_hex.
Qed.

(** The card of the README: four bytes, eight characters. *)
Lemma readCard_uid_format_witness :
  exists dev data,
    RFIDReader.reader (Sample.cardReader [Sample.card]) = Some dev
    /\ RFIDReader.getUid (fst (RFIDReader.nextAccess dev)) = Normal (true, data)
    /\ "A1B2C3D4" = RFIDReader.uidHex data
    /\ (Forall UidFormat.isByte data ->
        "A1B2C3D4" = UidFormat.encode data
        /\ String.length "A1B2C3D4" = (2 * length data)%nat
        /\ Nat.Even (String.length "A1B2C3D4")
        /\ forallb UidFormat.isUpperHex (JsString.toList "A1B2C3D4") = true).
Proof.
  apply (readCard_uid_format (Sample.cardReader [Sample.card]) "A1B2C3D4").
  reflexivity.
Defined.

(** ** The card reader: [startContinuousRead] *)

Section Debounce.

Import RFIDReader.

Lemma expire_cleared (uid : string) : expire uid None = None.
Proof. reflexivity. Qed.

Lemma expire_same (uid : string) : expire uid (Some uid) = None.
Proof. cbn. now rewrite String.eqb_refl. Qed.

Lemma expire_keeps (uid : string) (last : option string) :
  expire uid last = None \/ expire uid last = last.
Proof.
  destruct last as [l|]; cbn; auto. destruct (String.eqb l uid); auto.
Qed.

Lemma runTimeouts_cleared (now : Z) (pending : list (Z * string)) :
  snd (runTimeouts now pending None) = None.
Proof.
  induction pending as [|[due uid] rest IH]; cbn; [reflexivity|].
  destruct (due <=? now); [exact IH|].
  destruct (runTimeouts now rest None). exact IH.
Qed.

(** The timeouts only ever clear [lastUid]. *)
Lemma runTimeouts_keeps (now : Z) (pending : list (Z * string))
    (last : option string) :
  snd (runTimeouts now pending last) = None
  \/ snd (runTimeouts now pending last) = last.
Proof.
  revert last. induction pending as [|[due uid] rest IH]; intros last; cbn;
    [auto|].
  destruct (due <=? now).
  - destruct (expire_keeps uid last) as [-> | ->]; [|apply IH].
    left. apply runTimeouts_cleared.
  - specialize (IH last). destruct (runTimeouts now rest last). exact IH.
Qed.

(** A timeout for [uid] that is due clears a [lastUid] that is [uid]. *)
Lemma runTimeouts_due (now due : Z) (uid : string)
    (pending : list (Z * string)) (last : option string) :
  In (due, uid) pending -> due <= now ->
  last = None \/ last = Some uid ->
  snd (runTimeouts now pending last) = None.
Proof.
  revert last. induction pending as [|[d v] rest IH]; intros last Hin Hdue Hlast;
    [destruct Hin|].
  cbn. destruct Hin as [Heq | Hin].
  - injection Heq as -> ->.
    destruct (Z.leb_spec due now); [|lia].
    destruct Hlast as [-> | ->];
      [rewrite expire_cleared | rewrite expire_same];
      apply runTimeouts_cleared.
  - destruct (d <=? now).
    + apply IH; auto.
      destruct Hlast as [-> | ->]; [now left|].
      destruct (expire_keeps v (Some uid)); auto.
    + specialize (IH last Hin Hdue Hlast).
      destruct (runTimeouts now rest last). exact IH.
Qed.

(** A timeout that is not due yet stays pending. *)
Lemma runTimeouts_pending (now due : Z) (uid : string)
    (pending : list (Z * string)) (last : option string) :
  In (due, uid) pending -> now < due ->
  In (due, uid) (fst (runTimeouts now pending last)).
Proof.
  revert last. induction pending as [|[d v] rest IH]; intros last Hin Hdue;
    [destruct Hin|].
  cbn. destruct Hin as [Heq | Hin].
  - injection Heq as -> ->.
    destruct (Z.leb_spec due now); [lia|].
    destruct (runTimeouts now rest last). now left.
  - destruct (d <=? now).
    + now apply IH.
    + specialize (IH last Hin Hdue).
      destruct (runTimeouts now rest last). now right.
Qed.

(** What a tick that calls [onCardDetected] did. *)
Lemma tick_calls (now : Z) (p p' : Polling) (uid : string) :
  tick now p = (p', Some uid) ->
  fst (readCard (self p)) = Normal (Some uid)
  /\ truthyString (Some uid) = true
  /\ differs uid (snd (runTimeouts now (timeouts p) (lastUid p))) = true
  /\ lastUid p' = Some uid
  /\ timeouts p' =
       List.app (fst (runTimeouts now (timeouts p) (lastUid p)))
                (match onCardDetected p now uid with
                 | Normal _ => [(now + 5000, uid)]
                 | Throw _ => []
                 end).
Proof.
  unfold tick.
  destruct (runTimeouts now (timeouts p) (lastUid p)) as [pending last].
  destruct (readCard (self p)) as [[[u|]|m] this']; try discriminate.
  destruct (truthyString (Some u) && differs u last) eqn:Hcond;
    [|discriminate].
  intros H. injection H as <- <-. apply andb_prop in Hcond as [Ht Hd].
  cbn. repeat split; auto.
  destruct (onCardDetected p now u); [reflexivity|].
  now rewrite app_nil_r.
Qed.

(** What a tick that does not call it leaves behind. *)
Lemma tick_silent (now : Z) (p p' : Polling) :
  tick now p = (p', None) ->
  lastUid p' = snd (runTimeouts now (timeouts p) (lastUid p))
  /\ timeouts p' = fst (runTimeouts now (timeouts p) (lastUid p)).
Proof.
  unfold tick.
  destruct (runTimeouts now (timeouts p) (lastUid p)) as [pending last].
  destruct (readCard (self p)) as [[[u|]|m] this'];
    try (intros H; injection H as <-; cbn; auto).
  destruct (truthyString (Some u) && differs u last); [discriminate|].
  intros H. injection H as <-. cbn. auto.
Qed.

(** A tick on which the card is read and [lastUid] is clear by then
    calls [onCardDetected]. *)
Lemma tick_after_clear (now : Z) (p : Polling) (uid : string) :
  fst (readCard (self p)) = Normal (Some uid) ->
  truthyString (Some uid) = true ->
  snd (runTimeouts now (timeouts p) (lastUid p)) = None ->
  snd (tick now p) = Some uid.
Proof.
  unfold tick.
  destruct (runTimeouts now (timeouts p) (lastUid p)) as [pending last].
  destruct (readCard (self p)) as [result this'].
  cbn. intros -> Ht ->. now rewrite Ht.
Qed.

Lemma armed_silent (start : Z) (uid : string) (times : list Z) :
  forall p p' calls,
    armed start uid p ->
    run times p = (p', calls) ->
    Forall (fun call => call = None) calls ->
    armed start uid p'.
Proof.
  induction times as [|now later IH]; intros p p' calls Harmed Hrun Hsilent.
  - cbn in Hrun. now injection Hrun as <- <-.
  - cbn in Hrun.
    destruct (tick now p) as [p1 call] eqn:Htick.
    destruct (run later p1) as [p2 calls'] eqn:Hlater.
    injection Hrun as <- <-.
    inversion Hsilent as [|? ? Hcall Hrest]; subst.
    apply (IH p1 p2 calls'); auto.
    apply tick_silent in Htick as [Hlast Hpending].
    destruct Harmed as [Hnone | [Hsome Hin]].
    + left. rewrite Hlast, Hnone. apply runTimeouts_cleared.
    + destruct (Z.leb_spec (start + 5000) now) as [Hdue | Hwait].
      * left. rewrite Hlast.
        apply (runTimeouts_due now (start + 5000) uid); auto.
      * destruct (runTimeouts_keeps now (timeouts p) (lastUid p))
          as [Hk | Hk].
        -- left. now rewrite Hlast.
        -- right. split; [now rewrite Hlast, Hk|].
           rewrite Hpending. now apply runTimeouts_pending.
Qed.

(** [lastUid] is always clear or the UID of the latest call. *)
Lemma lastUid_lastEmitted (times : list Z) :
  forall p p' calls before,
    lastUid p = None \/ lastUid p = before ->
    run times p = (p', calls) ->
    lastUid p' = None \/ lastUid p' = lastEmitted before calls.
Proof.
  induction times as [|now later IH]; intros p p' calls before Hlast Hrun.
  - cbn in Hrun. now injection Hrun as <- <-.
  - cbn in Hrun.
    destruct (tick now p) as [p1 call] eqn:Htick.
    destruct (run later p1) as [p2 calls'] eqn:Hlater.
    injection Hrun as <- <-.
    destruct call as [uid|]; cbn [lastEmitted].
    + apply (IH p1 p2 calls'); auto.
      apply tick_calls in Htick. right. tauto.
    + apply (IH p1 p2 calls'); auto.
      apply tick_silent in Htick as [Hl _]. rewrite Hl.
      destruct (runTimeouts_keeps now (timeouts p) (lastUid p)) as [-> | ->];
        auto.
Qed.

End Debounce.

(** A tick calls [onCardDetected(uid)] only when the read gave a UID
    that is not [null] (nor empty) and that differs from [lastUid] as the
    timeouts due by then have left it; the call stores the UID in
    [lastUid]; when the callback returns, a timeout is set 5000 ms ahead,
    and when no other call comes in between, a tick that reads the same
    UID at or after that time calls [onCardDetected] again. *)
Lemma tick_announces_again
    (p0 p1 : RFIDReader.Polling) (now0 : Z) (uid : string) :
  RFIDReader.tick now0 p0 = (p1, Some uid) ->
  (fst (RFIDReader.readCard (RFIDReader.self p0)) = Normal (Some uid)
   /\ uid <> ""
   /\ snd (RFIDReader.runTimeouts now0 (RFIDReader.timeouts p0)
             (RFIDReader.lastUid p0)) <> Some uid)
  /\ RFIDReader.lastUid p1 = Some uid
  /\ (RFIDReader.onCardDetected p0 now0 uid = Normal tt ->
      In (now0 + 5000, uid) (RFIDReader.timeouts p1)
      /\ (forall times p2 calls now,
            RFIDReader.run times p1 = (p2, calls) ->
            Forall (fun call => call = None) calls ->
            now0 + 5000 <= now ->
            fst (RFIDReader.readCard (RFIDReader.self p2))
              = Normal (Some uid) ->
            snd (RFIDReader.tick now p2) = Some uid)).
Proof.
  intros Htick.
  apply tick_calls in Htick as [Hread [Htruthy [Hdiffers [Hlast Htimeouts]]]].
  split; [|split; [exact Hlast|]].
  - split; [exact Hread|]. split.
    + intros ->. discriminate.
    + intros Heq. rewrite Heq in Hdiffers. cbn in Hdiffers.
      now rewrite String.eqb_refl in Hdiffers.
  - intros Hreturns. rewrite Hreturns in Htimeouts.
    assert (Hin : In (now0 + 5000, uid) (RFIDReader.timeouts p1)).
    { rewrite Htimeouts. apply in_or_app. right. now left. }
    split; [exact Hin|].
    intros times p2 calls now Hrun Hsilent Hafter Hread2.
    apply tick_after_clear; auto.
    assert (Harmed : RFIDReader.armed now0 uid p2).
    { apply (armed_silent now0 uid times p1 p2 calls); auto.
      right. auto. }
    destruct Harmed as [Hnone | [Hsome Hpending]].
    + rewrite Hnone. apply runTimeouts_cleared.
    + apply (runTimeouts_due now (now0 + 5000) uid); auto.
Qed.

(** C4, at an input where it fails.  A loop started by
    [startContinuousRead] with a callback that returns sees the card,
    another card, and then the card again for four ticks, one second
    apart.  The third tick announces the card and makes it [lastUid],
    with a timeout due at 8000 ms; the timeout of the first
    announcement, never cancelled, clears [lastUid] at 6000 ms, and the
    tick at 6000 ms announces the card again, 3000 ms after its latest
    announcement. *)
Theorem startContinuousRead_clears_early :
  exists p,
    RFIDReader.startContinuousRead
      (Sample.cardReader
         [ Sample.card; Sample.otherCard; Sample.card; Sample.card;
           Sample.card; Sample.card ])
      (fun _ _ => Normal tt) None = Normal p
    /\ snd (RFIDReader.run [1000; 2000; 3000; 4000; 5000; 6000] p)
       = [ Some "A1B2C3D4"; Some "E5F60718"; Some "A1B2C3D4"; None; None;
           Some "A1B2C3D4" ]
    /\ RFIDReader.lastUid
         (fst (RFIDReader.run [1000; 2000; 3000; 4000; 5000] p))
       = Some "A1B2C3D4"
    /\ RFIDReader.timeouts
         (fst (RFIDReader.run [1000; 2000; 3000; 4000; 5000] p))
       = [ (6000, "A1B2C3D4"); (7000, "E5F60718"); (8000, "A1B2C3D4") ]
    /\ snd (RFIDReader.runTimeouts 6000
              (RFIDReader.timeouts
                 (fst (RFIDReader.run [1000; 2000; 3000; 4000; 5000] p)))
              (RFIDReader.lastUid
                 (fst (RFIDReader.run [1000; 2000; 3000; 4000; 5000] p))))
       = None.
Proof. eexists. repeat split; reflexivity. Qed.

(** The card held in the field from the first tick at 1000 ms on: called
    at 1000 ms, silent up to 5000 ms, called again at 6000 ms. *)
Example tick_announces_again_held :
  let p1 := fst (RFIDReader.tick 1000 Sample.polling) in
  let p2 := fst (RFIDReader.run (RFIDReader.schedule p1 1000 4) p1) in
  RFIDReader.lastUid p1 = Some "A1B2C3D4"
  /\ In (6000, "A1B2C3D4") (RFIDReader.timeouts p1)
  /\ snd (RFIDReader.run (RFIDReader.schedule p1 1000 4) p1)
     = [None; None; None; None]
  /\ snd (RFIDReader.tick 6000 p2) = Some "A1B2C3D4".
Proof.
  cbv zeta.
  destruct (tick_announces_again Sample.polling
              (fst (RFIDReader.tick 1000 Sample.polling)) 1000 "A1B2C3D4"
              eq_refl)
    as [_ [Hlast Hreturns]].
  destruct (Hreturns eq_refl) as [Hpending Hagain].
  split; [exact Hlast|]. split; [exact Hpending|].
  split; [reflexivity|].
  apply (Hagain
           (RFIDReader.schedule (fst (RFIDReader.tick 1000 Sample.polling))
              1000 4)
           _ [None; None; None; None] 6000).
  - reflexivity.
  - repeat constructor.
  - lia.
  - reflexivity.
Qed.

(** When the callback throws, no timeout is set: [lastUid] is never
    cleared and the card that stays in the field is not announced again,
    also after the window. *)
Example startContinuousRead_callback_throws :
  exists p,
    RFIDReader.startContinuousRead (Sample.cardReader (repeat Sample.card 7))
      (fun _ _ => Throw "listener failed") None = Normal p
    /\ snd (RFIDReader.run [1000; 2000; 3000; 4000; 5000; 6000; 7000] p)
       = [Some "A1B2C3D4"; None; None; None; None; None; None]
    /\ RFIDReader.timeouts
         (fst (RFIDReader.run [1000; 2000; 3000; 4000; 5000; 6000; 7000] p))
       = [].
Proof. eexists. repeat split; reflexivity. Qed.

(** The same card on every tick of the first seven seconds. *)
Example startContinuousRead_held_card :
  RFIDReader.startContinuousRead (Sample.cardReader (repeat Sample.card 7))
    (fun _ _ => Normal tt) None
    = Normal Sample.polling
  /\ snd (RFIDReader.run (RFIDReader.schedule Sample.polling 0 7) Sample.polling)
     = [Some "A1B2C3D4"; None; None; None; None; Some "A1B2C3D4"; None].
Proof. split; reflexivity. Qed.

(** A timeout is not cancelled when its card is announced anew: with the
    card, another card, and the card again on the first three ticks, the
    timeout of the first call clears [lastUid] at 6000 ms, three seconds
    after the third call. *)
Example startContinuousRead_stale_timeout :
  snd (RFIDReader.run [1000; 2000; 3000; 4000; 5000; 6000]
         {| RFIDReader.self :=
              Sample.cardReader
                [ Sample.card; Sample.otherCard; Sample.card; Sample.card;
                  Sample.card; Sample.card ];
            RFIDReader.onCardDetected := fun _ _ => Normal tt;
            RFIDReader.interval := 1000;
            RFIDReader.lastUid := None; RFIDReader.timeouts := [] |})
  = [ Some "A1B2C3D4"; Some "E5F60718"; Some "A1B2C3D4"; None; None;
      Some "A1B2C3D4" ].
Proof. reflexivity. Qed.

(** C5.  [POST /api/rfid/scan] answers 503 exactly when there is no
    reader, 500 exactly when there is one and its [readCard] is rejected,
    and 200 with [{uid, timestamp}] exactly when there is one and its
    [readCard] resolves; every error has an [error] body; the reader is
    read once, also when the read fails. *)
Theorem postScan_outcomes (now : string) (srv : Server.t) :
  let response := fst (Server.postScan now srv) in
  (Server.status response = 503 <-> Server.rfidReader srv = None)
  /\ (Server.rfidReader srv = None ->
        Server.postScan now srv =
          (Server.statusJson 503
             (JObj [ ("error", JStr "RFID reader not available") ]), srv))
  /\ (forall r,
        Server.rfidReader srv = Some r ->
        snd (Server.postScan now srv)
          = Server.withReader srv (snd (RFIDReader.readCard r))
        /\ (Server.status response = 500 <->
              exists message, fst (RFIDReader.readCard r) = Throw message)
        /\ (Server.status response = 200 <->
              exists uid, fst (RFIDReader.readCard r) = Normal uid)
        /\ (forall message,
              fst (RFIDReader.readCard r) = Throw message ->
              response = Server.statusJson 500
                (JObj [ ("error", JStr ("Scan failed: " ++ message)) ]))
        /\ (forall uid,
              fst (RFIDReader.readCard r) = Normal uid ->
              response = Server.json
                (JObj [ ("uid", jsonOfOptString uid);
                        ("timestamp", JStr now) ]))).
Proof.
  unfold Server.postScan. cbn zeta.
  destruct (Server.rfidReader srv) as [r|] eqn:Hr.
  - split; [|split].
    + destruct (RFIDReader.readCard r) as [[uid|m] r']; cbn;
        split; intros; discriminate.
    + discriminate.
    + intros r0 Hr0. injection Hr0 as <-.
      destruct (RFIDReader.readCard r) as [[uid|m] r']; cbn.
      * split; [reflexivity|]. split; [|split; [|split]].
        -- split; [discriminate|]. intros [m H]. discriminate.
        -- split; eauto.
        -- intros m H. discriminate.
        -- intros u Hu. injection Hu as <-. reflexivity.
      * split; [reflexivity|]. split; [|split; [|split]].
        -- split; eauto.
        -- split; [discriminate|]. intros [u H]. discriminate.
        -- intros m0 Hm. injection Hm as <-. reflexivity.
        -- intros u H. discriminate.
  - split; [|split].
    + cbn. tauto.
    + reflexivity.
    + discriminate.
Qed.

(** No reader, a reader whose bus fails, and a reader with the card. *)
Lemma postScan_outcomes_witness :
  Server.postScan "2025-10-21T10:30:00.000Z" Sample.bare
    = (Server.statusJson 503
         (JObj [ ("error", JStr "RFID reader not available") ]), Sample.bare)
  /\ fst (Server.postScan "2025-10-21T10:30:00.000Z"
            (Server.withReader Sample.bare
               (Sample.cardReader [Sample.busError; Sample.card])))
     = Server.statusJson 500
         (JObj [ ("error", JStr "Scan failed: SPI transfer failed") ])
  /\ snd (Server.postScan "2025-10-21T10:30:00.000Z"
            (Server.withReader Sample.bare
               (Sample.cardReader [Sample.busError; Sample.card])))
     = Server.withReader Sample.bare (Sample.cardReader [Sample.card])
  /\ fst (Server.postScan "2025-10-21T10:30:00.000Z" Sample.tapped)
     = Server.json
         (JObj [ ("uid", JStr "A1B2C3D4");
                 ("timestamp", JStr "2025-10-21T10:30:00.000Z") ]).
Proof.
  split; [|split; [|split]].
  - apply (proj1 (proj2 (postScan_outcomes "2025-10-21T10:30:00.000Z"
                           Sample.bare))).
    reflexivity.
  - destruct (proj2 (proj2 (postScan_outcomes "2025-10-21T10:30:00.000Z"
                (Server.withReader Sample.bare
                   (Sample.cardReader [Sample.busError; Sample.card]))))
                (Sample.cardReader [Sample.busError; Sample.card]) eq_refl)
      as [_ [_ [_ [Hthrow _]]]].
    apply Hthrow. reflexivity.
  - destruct (proj2 (proj2 (postScan_outcomes "2025-10-21T10:30:00.000Z"
                (Server.withReader Sample.bare
                   (Sample.cardReader [Sample.busError; Sample.card]))))
                (Sample.cardReader [Sample.busError; Sample.card]) eq_refl)
      as [Hstate _].
    rewrite Hstate. reflexivity.
  - destruct (proj2 (proj2 (postScan_outcomes "2025-10-21T10:30:00.000Z"
                Sample.tapped))
                (Sample.cardReader [Sample.card; Sample.card]) eq_refl)
      as [_ [_ [_ [_ Hnormal]]]].
    apply (Hnormal (Some "A1B2C3D4")). reflexivity.
Defined.

(** C10.  With a live reader whose driver reports no card, or a failed
    UID read, [readCard] resolves to [null] and the scan route answers 200
    with [{uid: null, timestamp}]. *)
Theorem postScan_no_card (now : string) (srv : Server.t)
    (r : RFIDReader.t) (dev : RFIDReader.MFRC522) (a : RFIDReader.Access) :
  Server.rfidReader srv = Some r ->
  RFIDReader.isInitialized r = true ->
  RFIDReader.reader r = Some dev ->
  a = fst (RFIDReader.nextAccess dev) ->
  RFIDReader.reset a = Normal tt ->
  RFIDReader.findCard a = Normal false \/
  (RFIDReader.findCard a = Normal true /\
   exists data, RFIDReader.getUid a = Normal (false, data)) ->
  fst (RFIDReader.readCard r) = Normal None
  /\ fst (Server.postScan now srv)
     = {| Server.status := 200;
          Server.body := JObj [ ("uid", JNull); ("timestamp", JStr now) ] |}.
Proof.
  intros Hr Hinit Hdev Ha Hreset Hcard.
  assert (Hread : fst (RFIDReader.readCard r) = Normal None).
  { unfold RFIDReader.readCard. rewrite Hinit, Hdev.
    destruct (RFIDReader.nextAccess dev) as [a' dev'] eqn:Hnext.
    cbn in Ha. subst a'. rewrite Hreset.
    destruct Hcard as [-> | [-> [data ->]]]; reflexivity. }
  split; [exact Hread|].
  unfold Server.postScan. rewrite Hr.
  destruct (RFIDReader.readCard r) as [result r']. cbn in Hread. subst result.
  reflexivity.
Qed.

(** A reader whose field is empty, behind the scan route. *)
Lemma postScan_no_card_witness :
  fst (RFIDReader.readCard (Sample.cardReader [RFIDReader.noCard]))
    = Normal None
  /\ fst (Server.postScan "2025-10-21T10:30:00.000Z"
            (Server.withReader Sample.bare
               (Sample.cardReader [RFIDReader.noCard])))
     = {| Server.status := 200;
          Server.body :=
            JObj [ ("uid", JNull);
                   ("timestamp", JStr "2025-10-21T10:30:00.000Z") ] |}.
Proof.
  apply (postScan_no_card "2025-10-21T10:30:00.000Z"
           (Server.withReader Sample.bare
              (Sample.cardReader [RFIDReader.noCard]))
           (Sample.cardReader [RFIDReader.noCard])
           {| RFIDReader.answers := [RFIDReader.noCard] |}
           RFIDReader.noCard);
    try reflexivity.
  left. reflexivity.
Defined.

(** ** The receipt formatter *)

Section Emission.

Import PrinterService.

Lemma emits_sendCommand (command : list Z) :
  emits (sendCommand command) [bufferFrom command].
Proof.
  intros this Hready. unfold ready in Hready. unfold sendCommand.
  destruct (isConnected this); [|discriminate].
  destruct (port this) as [sp|] eqn:Hport; [|discriminate].
  cbn in Hready. unfold write.
  destruct (outcomes sp) as [|[err|] later] eqn:Hout.
  - eexists. split; [reflexivity|]. unfold ready, output. cbn.
    rewrite Hport. auto.
  - discriminate.
  - eexists. split; [reflexivity|]. unfold ready, output. cbn.
    rewrite Hport. cbn in Hready. auto.
Qed.

Lemma emits_ret : emits (ret tt) [].
Proof.
  intros this Hready. exists this. rewrite app_nil_r. auto.
Qed.

Lemma emits_bind (c k : Action unit) (s1 s2 : list (list Z)) :
  emits c s1 -> emits k s2 -> emits (c ;; k) (List.app s1 s2).
Proof.
  intros Hc Hk this Hready.
  destruct (Hc this Hready) as [this1 [Hrun1 [Hready1 Hout1]]].
  destruct (Hk this1 Hready1) as [this2 [Hrun2 [Hready2 Hout2]]].
  exists this2. unfold bind. rewrite Hrun1, Hrun2, Hout2, Hout1.
  now rewrite app_assoc.
Qed.

Lemma emits_when (b : bool) (c : Action unit) (s : list (list Z)) :
  emits c s -> emits (when b c) (if b then s else []).
Proof.
  intros Hc. destruct b; [exact Hc | exact emits_ret].
Qed.

Lemma emits_printText (text : string) (options : Options) :
  emits (printText text options)
    (List.app (if center options then [COMMANDS.ALIGN_CENTER] else [])
    (List.app (if bold options then [COMMANDS.BOLD_ON] else [])
    (List.app (if doubleSize options then [COMMANDS.FONT_SIZE_DOUBLE] else [])
    (List.app [bufferFrom (List.app (JsString.utf8Bytes text) COMMANDS.FEED_LINE)]
    (List.app (if bold options then [COMMANDS.BOLD_OFF] else [])
    (List.app (if doubleSize options then [COMMANDS.FONT_SIZE_NORMAL] else [])
              (if center options then [COMMANDS.ALIGN_LEFT] else []))))))).
Proof.
  unfold printText.
  repeat apply emits_bind;
    try apply (emits_when _ _ [_]); apply emits_sendCommand.
Qed.

Lemma emits_printReceipt {host : Host} (data : ReceiptData) :
  exists segments,
    emits (printReceipt data) segments
    /\ hd_error segments = Some COMMANDS.INIT
    /\ last segments [] = COMMANDS.CUT_PAPER.
Proof.
  eexists. split.
  - unfold printReceipt.
    repeat (apply emits_bind;
            [first [apply emits_sendCommand | apply emits_printText]|]).
    apply emits_sendCommand.
  - split; vm_compute; reflexivity.
Qed.

Lemma emits_format {host : Host} (data : ReceiptData) :
  emits (printReceipt data) (format data)
  /\ hd_error (format data) = Some COMMANDS.INIT
  /\ last (format data) [] = COMMANDS.CUT_PAPER.
Proof.
  destruct (emits_printReceipt data) as [segments [Hemits [Hhd Hlast]]].
  assert (Hformat : format data = segments).
  { unfold format.
    destruct (Hemits blank eq_refl) as [this' [Hrun [_ Hout]]].
    rewrite Hrun. exact Hout. }
  rewrite Hformat. auto.
Qed.

End Emission.

(** C3, as the code has it.  Two invocations of [printReceipt] on one
    account snapshot, on printers that are connected and whose writes
    succeed, both complete and send the same sequence of segments,
    [format data]; it begins with the initialize command and ends with the
    paper cut; the printer is ready again afterwards. *)
Theorem printReceipt_deterministic {host : Host}
    (data : PrinterService.ReceiptData) (p q : PrinterService.t) :
  PrinterService.ready p = true ->
  PrinterService.ready q = true ->
  exists p' q',
    PrinterService.printReceipt data p = (Normal tt, p')
    /\ PrinterService.printReceipt data q = (Normal tt, q')
    /\ PrinterService.sentBy data p = PrinterService.format data
    /\ PrinterService.sentBy data q = PrinterService.format data
    /\ hd_error (PrinterService.format data)
       = Some PrinterService.COMMANDS.INIT
    /\ last (PrinterService.format data) []
       = PrinterService.COMMANDS.CUT_PAPER
    /\ PrinterService.ready p' = true
    /\ PrinterService.ready q' = true.
Proof.
  intros Hp Hq.
  destruct (emits_format data) as [Hemits [Hhd Hlast]].
  destruct (Hemits p Hp) as [p' [Hrunp [Hreadyp Houtp]]].
  destruct (Hemits q Hq) as [q' [Hrunq [Hreadyq Houtq]]].
  exists p', q'. unfold PrinterService.sentBy.
  rewrite Hrunp, Hrunq. cbn [snd]. rewrite Houtp, Houtq.
  rewrite !skipn_app, !skipn_all, !Nat.sub_diag. cbn [skipn List.app].
  repeat split; assumption.
Qed.

(** The sample snapshot printed twice in a row on one printer. *)
Lemma printReceipt_deterministic_witness :
  let first := PrinterService.printReceipt (host := Sample.host)
                 Sample.snapshot Sample.printer in
  exists p' q',
    first = (Normal tt, p')
    /\ PrinterService.printReceipt (host := Sample.host)
         Sample.snapshot (snd first) = (Normal tt, q')
    /\ PrinterService.sentBy (host := Sample.host) Sample.snapshot
         Sample.printer
       = PrinterService.format (host := Sample.host) Sample.snapshot
    /\ PrinterService.sentBy (host := Sample.host) Sample.snapshot (snd first)
       = PrinterService.format (host := Sample.host) Sample.snapshot
    /\ hd_error (PrinterService.format (host := Sample.host) Sample.snapshot)
       = Some PrinterService.COMMANDS.INIT
    /\ last (PrinterService.format (host := Sample.host) Sample.snapshot) []
       = PrinterService.COMMANDS.CUT_PAPER
    /\ PrinterService.ready p' = true
    /\ PrinterService.ready q' = true.
Proof.
  apply (printReceipt_deterministic (host := Sample.host) Sample.snapshot
           Sample.printer
           (snd (PrinterService.printReceipt (host := Sample.host)
                   Sample.snapshot Sample.printer)));
    vm_compute; reflexivity.
Defined.

(** A printer that is not connected receives nothing, and the call
    throws. *)
Lemma printReceipt_not_connected {host : Host}
    (data : PrinterService.ReceiptData) (p : PrinterService.t) :
  PrinterService.isConnected p = false ->
  PrinterService.printReceipt data p = (Throw "Printer not connected", p).
Proof.
  intros Hoff. unfold PrinterService.printReceipt, PrinterService.bind,
    PrinterService.sendCommand at 1.
  now rewrite Hoff.
Qed.

(** C3 as stated fails.  After an ['error'] event of the port the
    invocation throws and sends nothing, so what it sends neither begins
    with the initialize command nor equals what the connected printer
    gets for the same snapshot; and when the third write fails the last
    segment sent is not the paper cut. *)
Lemma printReceipt_stops_on_failure :
  let off := PrinterService.onError Sample.printer in
  PrinterService.printReceipt (host := Sample.host) Sample.snapshot off
    = (Throw "Printer not connected", off)
  /\ PrinterService.sentBy (host := Sample.host) Sample.snapshot off = []
  /\ hd_error (PrinterService.sentBy (host := Sample.host) Sample.snapshot off)
     <> Some PrinterService.COMMANDS.INIT
  /\ PrinterService.sentBy (host := Sample.host) Sample.snapshot Sample.printer
     <> PrinterService.sentBy (host := Sample.host) Sample.snapshot off
  /\ fst (PrinterService.printReceipt (host := Sample.host) Sample.snapshot
            Sample.jammed) = Throw "EIO"
  /\ PrinterService.sentBy (host := Sample.host) Sample.snapshot Sample.jammed
     = [ PrinterService.COMMANDS.INIT; PrinterService.COMMANDS.ALIGN_CENTER ]
  /\ last (PrinterService.sentBy (host := Sample.host) Sample.snapshot
             Sample.jammed) []
     <> PrinterService.COMMANDS.CUT_PAPER.
Proof.
  cbv zeta. repeat split; try (vm_compute; reflexivity);
    vm_compute; discriminate.
Qed.

(** ** The print route without a printer *)

Lemma postPrint_mock_aux {host : Host} (reqBody : Json) (now : string)
    (srv : Server.t) :
  Server.printerService srv = None ->
  exists response, Server.postPrint reqBody now srv = Some (response, srv).
Proof.
  intros Hnone. unfold Server.postPrint. rewrite Hnone. eauto.
Qed.

Lemma written_plain : forall j, Server.plain j = true -> Server.written j = j.
Proof.
  fix IH 1. intros [ | b | n | s | items | fields] Hplain;
    cbn [Server.written Server.plain] in *; try reflexivity.
  - apply andb_prop in Hplain as [Hfinite Hzero].
    rewrite Hfinite. apply negb_true_iff in Hzero. now rewrite Hzero.
  - f_equal. induction items as [|item items IHitems]; [reflexivity|].
    cbn [forallb map] in *. apply andb_prop in Hplain as [Hitem Hitems].
    f_equal; [now apply IH | now apply IHitems].
  - f_equal. induction fields as [|[key value] fields IHfields];
      [reflexivity|].
    cbn [forallb map fst snd] in *.
    apply andb_prop in Hplain as [Hvalue Hfields].
    f_equal; [f_equal; now apply IH | now apply IHfields].
Qed.

(** A body that the middleware refuses never reaches the handler. *)
Lemma postPrintRoute_refused {host : Host} (s : Server.Submission)
    (status : Z) (now : string) (srv : Server.t) :
  Server.expressJson s = inl status ->
  Server.postPrintRoute s now srv = Some (Server.Refused status, srv).
Proof.
  intros Hrefused. unfold Server.postPrintRoute. now rewrite Hrefused.
Qed.

(** C6 as stated fails, on the server without hardware.  A body that is
    a JSON string is answered 400 by the middleware; a body sent without
    a JSON content type comes back as [{}]; and in a body with a number
    beyond the doubles, the text [1e999], the client reads [null]. *)
Lemma postPrint_mock_not_every_body :
  Server.postPrintRoute (host := Sample.host)
    (Server.Text (Normal (JStr "print this")))
    "2025-10-21T10:30:00.000Z" Sample.bare
  = Some (Server.Refused 400, Sample.bare)
  /\ (exists response,
        Server.postPrintRoute (host := Sample.host) Server.Skipped
          "2025-10-21T10:30:00.000Z" Sample.bare
        = Some (Server.Answered response, Sample.bare)
        /\ Server.property "data" (Server.written (Server.body response))
           = Some (JObj []))
  /\ (exists response,
        Server.postPrintRoute (host := Sample.host)
          (Server.Text (Normal (JObj [ ("balance", JNum PrimFloat.infinity) ])))
          "2025-10-21T10:30:00.000Z" Sample.bare
        = Some (Server.Answered response, Sample.bare)
        /\ Server.property "data" (Server.written (Server.body response))
           = Some (JObj [ ("balance", JNull) ])
        /\ Server.property "data" (Server.written (Server.body response))
           <> Some (JObj [ ("balance", JNum PrimFloat.infinity) ])).
Proof.
  split; [reflexivity|]. split.
  - eexists. split; reflexivity.
  - eexists. split; [reflexivity|]. split; [reflexivity|].
    vm_compute. discriminate.
Qed.

(** C6, as the code has it.  Without a printer service, a request whose
    body the middleware lets through, a JSON object or array or no JSON
    body at all, is answered 200 with [success: true], a message that
    starts with "Mock print", and under [data] the body that the handler
    received: [{}] when nothing was parsed, else the parsed body, which
    the client reads with non-finite numbers as [null] and [-0] as [0],
    and unchanged when it has no such number.  Nothing else changes.  A
    body that does not parse, or that parses to something else than an
    object or an array, is answered 400 before the handler runs. *)
Theorem postPrint_mock_echo {host : Host} (s : Server.Submission)
    (now : string) (srv : Server.t) :
  Server.printerService srv = None ->
  (forall reqBody,
     (s = Server.Skipped /\ reqBody = JObj [])
     \/ (s = Server.Text (Normal reqBody)
         /\ Server.isObjectOrArray reqBody = true) ->
     exists response,
       Server.postPrintRoute s now srv = Some (Server.Answered response, srv)
       /\ Server.status response = 200
       /\ Server.property "success" (Server.written (Server.body response))
          = Some (JBool true)
       /\ (exists message,
             Server.property "message" (Server.written (Server.body response))
             = Some (JStr message)
             /\ String.prefix "Mock print" message = true)
       /\ Server.property "data" (Server.body response) = Some reqBody
       /\ Server.property "data" (Server.written (Server.body response))
          = Some (Server.written reqBody)
       /\ (Server.plain reqBody = true ->
           Server.property "data" (Server.written (Server.body response))
           = Some reqBody))
  /\ (forall j,
        s = Server.Text (Normal j) -> Server.isObjectOrArray j = false ->
        Server.postPrintRoute s now srv = Some (Server.Refused 400, srv))
  /\ (forall message,
        s = Server.Text (Throw message) ->
        Server.postPrintRoute s now srv = Some (Server.Refused 400, srv)).
Proof.
  intros Hnone. split; [|split].
  - intros reqBody Hbody.
    assert (Haccepted : Server.expressJson s = inr reqBody).
    { destruct Hbody as [[-> ->] | [-> Hshape]]; [reflexivity|].
      cbn. now rewrite Hshape. }
    unfold Server.postPrintRoute, Server.postPrint.
    rewrite Haccepted, Hnone.
    eexists. split; [reflexivity|].
    cbn [Server.status Server.body Server.json].
    split; [reflexivity|]. split; [reflexivity|].
    split; [eexists; split; reflexivity|].
    split; [reflexivity|].
    assert (Hdata : forall j,
              Server.property "data"
                (Server.written
                   (JObj [ ("success", JBool true);
                           ("message",
                            JStr "Mock print (no hardware available)");
                           ("data", j) ]))
              = Some (Server.written j)) by reflexivity.
    split; [apply Hdata|].
    intros Hplain. rewrite Hdata. now rewrite written_plain.
  - intros j -> Hshape. apply postPrintRoute_refused.
    cbn. now rewrite Hshape.
  - intros message ->. now apply postPrintRoute_refused.
Qed.

(** The body that the client posts, on the server without hardware, and
    the same request with the text ["print this"] as its body. *)
Lemma postPrint_mock_echo_witness :
  (exists response,
     Server.postPrintRoute (host := Sample.host)
       (Server.Text (Normal (UseATMConnection.printBody Sample.juan)))
       "2025-10-21T10:30:00.000Z" Sample.bare
     = Some (Server.Answered response, Sample.bare)
     /\ Server.status response = 200
     /\ Server.property "success" (Server.written (Server.body response))
        = Some (JBool true)
     /\ (exists message,
           Server.property "message" (Server.written (Server.body response))
           = Some (JStr message)
           /\ String.prefix "Mock print" message = true)
     /\ Server.property "data" (Server.body response)
        = Some (UseATMConnection.printBody Sample.juan)
     /\ Server.property "data" (Server.written (Server.body response))
        = Some (Server.written (UseATMConnection.printBody Sample.juan))
     /\ (Server.plain (UseATMConnection.printBody Sample.juan) = true ->
         Server.property "data" (Server.written (Server.body response))
         = Some (UseATMConnection.printBody Sample.juan)))
  /\ Server.postPrintRoute (host := Sample.host)
       (Server.Text (Normal (JStr "print this")))
       "2025-10-21T10:30:00.000Z" Sample.bare
     = Some (Server.Refused 400, Sample.bare).
Proof.
  split.
  - apply (proj1 (postPrint_mock_echo (host := Sample.host)
                    (Server.Text
                       (Normal (UseATMConnection.printBody Sample.juan)))
                    "2025-10-21T10:30:00.000Z" Sample.bare eq_refl)).
    right. split; reflexivity.
  - apply (proj1 (proj2 (postPrint_mock_echo (host := Sample.host)
                           (Server.Text (Normal (JStr "print this")))
                           "2025-10-21T10:30:00.000Z" Sample.bare eq_refl))
             (JStr "print this"));
      reflexivity.
Defined.

(** The sample body has no number that [res.json] would change. *)
Example printBody_plain :
  Server.plain (UseATMConnection.printBody Sample.juan) = true.
Proof. reflexivity. Qed.

(** ** Start-up without hardware *)

(** C7.  Starting never fails.  A service variable is set exactly when
    its constructor returned, the health route reports exactly that, and
    every route answers: without a printer also the print route. *)
Theorem start_tolerates_missing_hardware {host : Host}
    (env : Server.Environment) (now : string) :
  let srv := Server.start env in
  let rfid := isNormal (RFIDReader.new (Server.driver env)) in
  let printer :=
    isNormal (PrinterService.new (Server.openPort env) None None) in
  (truthyObject (Server.rfidReader srv) = rfid)
  /\ (truthyObject (Server.printerService srv) = printer)
  /\ Server.getHealth now srv =
       (Server.json
          (JObj [ ("status", JStr "ok");
                  ("services",
                   JObj [ ("rfid", JBool rfid); ("printer", JBool printer) ]);
                  ("timestamp", JStr now) ]),
        srv)
  /\ (forall req,
        (printer = false \/ forall reqBody, req <> Server.PostPrint reqBody) ->
        exists response srv',
          Server.handle req now srv = Some (response, srv'))
  /\ (rfid = false ->
      Server.postScan now srv =
        (Server.statusJson 503
           (JObj [ ("error", JStr "RFID reader not available") ]), srv)).
Proof.
  cbn zeta.
  assert (Hr : truthyObject (Server.rfidReader (Server.start env))
               = isNormal (RFIDReader.new (Server.driver env))).
  { cbn. now destruct (RFIDReader.new _). }
  assert (Hp : truthyObject (Server.printerService (Server.start env))
               = isNormal (PrinterService.new (Server.openPort env) None None)).
  { cbn. now destruct (PrinterService.new _ _ _). }
  split; [exact Hr|]. split; [exact Hp|]. split; [|split].
  - unfold Server.getHealth, Server.services. now rewrite Hr, Hp.
  - intros req Hreq. destruct req as [| key | | reqBody]; cbn [Server.handle].
    + destruct (Server.getHealth now _) as [response srv']. eauto.
    + destruct (Server.getUser key _) as [response srv']. eauto.
    + destruct (Server.postScan now _) as [response srv']. eauto.
    + destruct Hreq as [Hoff | Hother].
      * rewrite <- Hp in Hoff.
        destruct (Server.printerService (Server.start env)) eqn:Hsvc;
          [discriminate|].
        destruct (postPrint_mock_aux reqBody now _ Hsvc) as [response H].
        eauto.
      * now destruct (Hother reqBody).
  - intros Hoff. rewrite <- Hr in Hoff.
    unfold Server.postScan.
    now destruct (Server.rfidReader (Server.start env)).
Qed.

(** A laptop: both constructors throw, the server starts all the same. *)
Lemma start_tolerates_missing_hardware_witness :
  Server.getHealth "2025-10-21T10:30:00.000Z" (Server.start Sample.laptop)
    = (Server.json
         (JObj [ ("status", JStr "ok");
                 ("services",
                  JObj [ ("rfid", JBool false); ("printer", JBool false) ]);
                 ("timestamp", JStr "2025-10-21T10:30:00.000Z") ]),
       Server.start Sample.laptop)
  /\ (exists response srv',
        Server.handle (host := Sample.host)
          (Server.PostPrint (jsonOfUser Sample.juan))
          "2025-10-21T10:30:00.000Z" (Server.start Sample.laptop)
        = Some (response, srv'))
  /\ Server.postScan "2025-10-21T10:30:00.000Z" (Server.start Sample.laptop)
     = (Server.statusJson 503
          (JObj [ ("error", JStr "RFID reader not available") ]),
        Server.start Sample.laptop).
Proof.
  destruct (start_tolerates_missing_hardware (host := Sample.host)
              Sample.laptop "2025-10-21T10:30:00.000Z")
    as [_ [_ [Hhealth [Hserves Hscan]]]].
  split; [exact Hhealth|]. split.
  - apply Hserves. left. reflexivity.
  - apply Hscan. reflexivity.
Defined.

(** ** The notification channel *)

Lemma events_sent (es : list Server.Event) :
  forall srv ws first later,
    Server.sent ws = first :: later ->
    Forall (fun m => Server.property "type" m = Some (JStr "card_detected"))
           later ->
    exists later',
      Server.sent (snd (Server.events es srv ws)) = first :: later'
      /\ Forall (fun m => Server.property "type" m = Some (JStr "card_detected"))
                later'.
Proof.
  induction es as [|e es IH]; intros srv ws first later Hsent Hlater.
  - cbn. eauto.
  - destruct e as [now|]; cbn [Server.events].
    + destruct (Server.onInterval now srv ws) as [srv' ws'] eqn:Hint.
      unfold Server.onInterval in Hint.
      destruct (Server.rfidInterval ws);
        [|injection Hint as <- <-; eapply IH; eauto].
      destruct (Server.rfidReader srv) as [r|];
        [|injection Hint as <- <-; eapply IH; eauto].
      destruct (RFIDReader.readCard r) as [[[u|]|m] r'];
        try (injection Hint as <- <-; eapply IH; eauto).
      destruct (truthyString (Some u));
        injection Hint as <- <-; [|eapply IH; eauto].
      eapply IH.
      * cbn. rewrite Hsent. reflexivity.
      * apply Forall_app. split; [assumption|].
        constructor; [reflexivity | constructor].
    + eapply IH; eauto.
Qed.

(** The handshake is the first message of a connection and the only one
    of its type. *)
Lemma connection_handshake_first (es : list Server.Event) (srv : Server.t) :
  exists later,
    Server.sent (snd (Server.connection es srv)) = Server.connected srv :: later
    /\ Forall (fun m => Server.property "type" m = Some (JStr "card_detected"))
              later.
Proof.
  unfold Server.connection.
  apply (events_sent es srv (Server.onConnection srv) (Server.connected srv) []);
    [reflexivity | constructor].
Qed.

(** C2, at an input where it fails.  The card stays in the field for two
    ticks of the server's timer, one second apart: after the handshake the
    socket carries two [card_detected] messages for it, where the loop of
    [startContinuousRead] on the same reader calls back once. *)
Theorem connection_repeats_card_detected :
  let ws :=
    snd (Server.connection
           [ Server.Interval "2025-10-21T10:30:01.000Z";
             Server.Interval "2025-10-21T10:30:02.000Z" ] Sample.tapped) in
  Server.sent ws =
    [ Server.connected Sample.tapped;
      Server.card_detected "A1B2C3D4" "2025-10-21T10:30:01.000Z";
      Server.card_detected "A1B2C3D4" "2025-10-21T10:30:02.000Z" ]
  /\ length (filter (Server.isCardDetected "A1B2C3D4") (Server.sent ws)) = 2%nat
  /\ snd (RFIDReader.run [1000; 2000]
            {| RFIDReader.self := Sample.cardReader [Sample.card; Sample.card];
               RFIDReader.onCardDetected := fun _ _ => Normal tt;
               RFIDReader.interval := 1000;
               RFIDReader.lastUid := None; RFIDReader.timeouts := [] |})
     = [Some "A1B2C3D4"; None].
Proof. cbv zeta. repeat split; reflexivity. Qed.

(** ** The client session *)

Section Session.

Import UseATMConnection.

Variable USE_MOCK_DATA : bool.

(** [fetchUserData] leaves in [currentUser] what the lookup found. *)
Lemma fetchUserData_currentUser (w : World) (call : nat) (key : string)
    (st : State) :
  currentUser (fetchUserData USE_MOCK_DATA w call key st)
    = lookup USE_MOCK_DATA w call key.
Proof.
  unfold fetchUserData, lookup. destruct USE_MOCK_DATA.
  - destruct (loadMockUsers w call) as [users|]; [|reflexivity].
    destruct (find _ users); reflexivity.
  - destruct (UseATMConnection.getUser w key) as [|[|] [user|]]; reflexivity.
Qed.

Lemma lookup_is_of_store (w : World) (call : nat) (key : string) (user : User) :
  USE_MOCK_DATA = true ->
  lookup USE_MOCK_DATA w call key = Some user ->
  uid user = key
  /\ exists users, loadMockUsers w call = Normal users /\ In user users.
Proof.
  intros -> Hfound. unfold lookup in Hfound.
  destruct (loadMockUsers w call) as [users|]; [|discriminate].
  apply find_some in Hfound as [Hin Heq]. apply String.eqb_eq in Heq.
  eauto.
Qed.

End Session.

(** C8.  After [logout] and after [disconnect] there is no current user.
    An operation that gets as far as [fetchUserData] leaves what that
    lookup found: the account record, or nothing when the lookup failed.
    Every other operation leaves the current user as it was.  So
    [currentUser], which holds one record or none, becomes a record only
    through a successful lookup. *)
Theorem currentUser_session (USE_MOCK_DATA : bool)
    (op : UseATMConnection.Operation) (st : UseATMConnection.State) :
  let st' := UseATMConnection.step USE_MOCK_DATA op st in
  (UseATMConnection.endsSession op = true ->
     UseATMConnection.currentUser st' = None)
  /\ (forall w call key,
        UseATMConnection.lookupMade USE_MOCK_DATA op = Some (w, call, key) ->
        UseATMConnection.currentUser st'
          = UseATMConnection.lookup USE_MOCK_DATA w call key)
  /\ (UseATMConnection.endsSession op = false ->
      UseATMConnection.lookupMade USE_MOCK_DATA op = None ->
      UseATMConnection.currentUser st' = UseATMConnection.currentUser st)
  /\ (forall user,
        UseATMConnection.currentUser st' = Some user ->
        UseATMConnection.currentUser st = Some user
        \/ exists w call key,
             UseATMConnection.lookupMade USE_MOCK_DATA op = Some (w, call, key)
             /\ UseATMConnection.lookup USE_MOCK_DATA w call key = Some user).
Proof.
  cbv zeta.
  assert (Hends : UseATMConnection.endsSession op = true ->
            UseATMConnection.currentUser
              (UseATMConnection.step USE_MOCK_DATA op st) = None).
  { destruct op; try discriminate; intros _; cbn.
    - unfold UseATMConnection.disconnect.
      destruct (UseATMConnection.ws st); reflexivity.
    - reflexivity. }
  assert (Hmade : forall w call key,
            UseATMConnection.lookupMade USE_MOCK_DATA op = Some (w, call, key) ->
            UseATMConnection.currentUser
              (UseATMConnection.step USE_MOCK_DATA op st)
            = UseATMConnection.lookup USE_MOCK_DATA w call key).
  { intros w call key.
    destruct op as [socket| |key0 w0|w0|w0|w0| | |m w0| |]; cbn;
      try discriminate.
    - intros H. injection H as <- <- <-.
      apply fetchUserData_currentUser.
    - unfold UseATMConnection.scanCard. destruct USE_MOCK_DATA.
      + destruct (UseATMConnection.loadMockUsers w0 0) as [users|];
          [|discriminate].
        destruct (nth_error users _) as [randomUser|]; [|discriminate].
        intros H. injection H as <- <- <-. cbn.
        apply (fetchUserData_currentUser true).
      + destruct (UseATMConnection.postScan w0) as [|[|] [data_uid|]];
          try discriminate.
        intros H. injection H as <- <- <-.
        change (UseATMConnection.currentUser
                  (UseATMConnection.setIsScanning false ?x))
          with (UseATMConnection.currentUser x).
        apply (fetchUserData_currentUser false).
    - unfold UseATMConnection.demoLogin.
      destruct (UseATMConnection.loadMockUsers w0 0) as [[|firstUser rest]|];
        try discriminate.
      intros H. injection H as <- <- <-. cbn.
      apply fetchUserData_currentUser.
    - destruct m as [data_uid| |]; try discriminate.
      intros H. injection H as <- <- <-. cbn.
      apply fetchUserData_currentUser. }
  assert (Hkept : UseATMConnection.endsSession op = false ->
            UseATMConnection.lookupMade USE_MOCK_DATA op = None ->
            UseATMConnection.currentUser
              (UseATMConnection.step USE_MOCK_DATA op st)
            = UseATMConnection.currentUser st).
  { destruct op as [socket| |key0 w0|w0|w0|w0| | |m w0| |]; cbn;
      try discriminate; intros _.
    - intros _. unfold UseATMConnection.connect.
      destruct USE_MOCK_DATA; [reflexivity|]. destruct socket; reflexivity.
    - unfold UseATMConnection.scanCard. destruct USE_MOCK_DATA.
      + destruct (UseATMConnection.loadMockUsers w0 0) as [users|];
          [|reflexivity].
        destruct (nth_error users _) as [randomUser|];
          [discriminate | reflexivity].
      + destruct (UseATMConnection.postScan w0) as [|[|] [data_uid|]];
          cbn; try discriminate; reflexivity.
    - unfold UseATMConnection.demoLogin.
      destruct (UseATMConnection.loadMockUsers w0 0) as [[|firstUser rest]|];
        try discriminate; reflexivity.
    - intros _. unfold UseATMConnection.printReceipt.
      destruct (UseATMConnection.currentUser st) eqn:Hcur; cbn;
        [|now rewrite Hcur].
      destruct USE_MOCK_DATA; [now rewrite Hcur|].
      destruct (UseATMConnection.postPrint w0) as [|[|] ?]; cbn;
        now rewrite Hcur.
    - reflexivity.
    - destruct m; try discriminate; reflexivity.
    - reflexivity.
    - reflexivity. }
  split; [exact Hends|]. split; [exact Hmade|]. split; [exact Hkept|].
  intros user Huser.
  destruct (UseATMConnection.lookupMade USE_MOCK_DATA op)
    as [[[w call] key]|] eqn:Hlookup.
  - right. exists w, call, key. split; [reflexivity|].
    rewrite <- Huser. symmetry. exact (Hmade w call key eq_refl).
  - left. destruct (UseATMConnection.endsSession op) eqn:He.
    + rewrite Hends in Huser by reflexivity. discriminate.
    + rewrite <- Huser. symmetry. exact (Hkept eq_refl eq_refl).
Qed.

(** A card found in the mock store, then a logout, then an unknown card. *)
Lemma currentUser_session_witness :
  let login := UseATMConnection.FetchUserData "A1B2C3D4" Sample.demoWorld in
  let unknown := UseATMConnection.FetchUserData "ZZZZZZZZ" Sample.demoWorld in
  let st1 := UseATMConnection.step true login UseATMConnection.initial in
  UseATMConnection.currentUser st1 = Some Sample.juan
  /\ UseATMConnection.currentUser
       (UseATMConnection.step true UseATMConnection.Logout st1) = None
  /\ UseATMConnection.currentUser
       (UseATMConnection.step true UseATMConnection.Disconnect st1) = None
  /\ UseATMConnection.currentUser
       (UseATMConnection.step true unknown st1) = None
  /\ UseATMConnection.currentUser
       (UseATMConnection.step true UseATMConnection.OnClose st1)
     = Some Sample.juan.
Proof.
  cbv zeta.
  split; [|split; [|split; [|split]]].
  - apply (proj1 (proj2 (currentUser_session true
             (UseATMConnection.FetchUserData "A1B2C3D4" Sample.demoWorld)
             UseATMConnection.initial)) Sample.demoWorld 0%nat "A1B2C3D4").
    reflexivity.
  - apply (proj1 (currentUser_session true UseATMConnection.Logout _)).
    reflexivity.
  - apply (proj1 (currentUser_session true UseATMConnection.Disconnect _)).
    reflexivity.
  - apply (proj1 (proj2 (currentUser_session true
             (UseATMConnection.FetchUserData "ZZZZZZZZ" Sample.demoWorld)
             _)) Sample.demoWorld 0%nat "ZZZZZZZZ").
    reflexivity.
  - rewrite (proj1 (proj2 (proj2 (currentUser_session true
               UseATMConnection.OnClose _))) eq_refl eq_refl).
    reflexivity.
Defined.

(** ** Checks of the string primitives *)

Example toString16_values :
  JsString.toString16 0 = "0" /\ JsString.toString16 161 = "a1"
  /\ JsString.toString16 255 = "ff" /\ JsString.toString16 256 = "100"
  /\ JsString.toString16 (-1) = "-1".
Proof. repeat split; reflexivity. Qed.

Example uidHex_pads :
  RFIDReader.uidHex [0x0A; 0x00; 0xFF] = "0A00FF"
  /\ RFIDReader.uidHex [] = ""
  /\ RFIDReader.uidHex [256] = "100".
Proof. repeat split; reflexivity. Qed.

Example card_line_groups :
  JsString.trim (JsString.spaceDigitGroups "4532123456789012")
    = "4532 1234 5678 9012"
  /\ JsString.trim (JsString.spaceDigitGroups "4532 1234 5678 9012")
    = "4532  1234  5678  9012"
  /\ JsString.trim (JsString.spaceDigitGroups "12345") = "1234 5".
Proof. repeat split; reflexivity. Qed.

(** * Further properties of the code *)

(** ** The card reader *)

Section ReaderFacts.

Import RFIDReader.

Lemma pair_injective (a b : Z) :
  UidFormat.isByte a -> UidFormat.isByte b ->
  UidFormat.pair a = UidFormat.pair b -> a = b.
Proof.
  intros Ha Hb. revert b Hb.
  apply (byte_cases
           (fun a => forall b, UidFormat.isByte b ->
                     UidFormat.pair a = UidFormat.pair b -> a = b));
    [|exact Ha].
  intros n Hn b Hb. revert b Hb.
  apply (byte_cases
           (fun b => UidFormat.pair (Z.of_nat n) = UidFormat.pair b ->
                     Z.of_nat n = b)).
  intros m Hm Heq.
  assert (Hall : forallb (fun n => forallb (fun m =>
                   implb (String.eqb (UidFormat.pair (Z.of_nat n))
                                     (UidFormat.pair (Z.of_nat m)))
                         (Nat.eqb n m)) (seq 0 256)) (seq 0 256) = true)
    by (vm_compute; reflexivity).
  pose proof (proj1 (forallb_forall _ _)
                (proj1 (forallb_forall _ _) Hall n Hn) m Hm) as H.
  cbv beta in H.
  apply String.eqb_eq in Heq. rewrite Heq in H. cbn [implb] in H.
  apply Nat.eqb_eq in H. now subst.
Qed.

Lemma encode_injective (d1 : list Z) :
  forall d2,
    Forall UidFormat.isByte d1 -> Forall UidFormat.isByte d2 ->
    UidFormat.encode d1 = UidFormat.encode d2 -> d1 = d2.
Proof.
  unfold UidFormat.encode.
  induction d1 as [|a l IH]; intros [|b m] H1 H2 Heq; try reflexivity.
  - change (map ?f (b :: m)) with (f b :: map f m) in Heq.
    rewrite concat_cons in Heq. discriminate.
  - change (map ?f (a :: l)) with (f a :: map f l) in Heq.
    rewrite concat_cons in Heq. discriminate.
  - change (map ?f (a :: l)) with (f a :: map f l) in Heq.
    change (map ?f (b :: m)) with (f b :: map f m) in Heq.
    rewrite !concat_cons in Heq.
    cbn [UidFormat.pair append] in Heq.
    injection Heq as Hx Hy Hrest.
    inversion H1 as [|? ? Ha Hl]; inversion H2 as [|? ? Hb Hm]; subst.
    f_equal.
    + apply pair_injective; auto. unfold UidFormat.pair. congruence.
    + now apply IH.
Qed.

Lemma skipn_tl {A} (n : nat) (l : list A) : skipn (S n) l = skipn n (tl l).
Proof. destruct l; [now destruct n | reflexivity]. Qed.

Lemma reads_live (n : nat) :
  forall this dev,
    isInitialized this = true -> reader this = Some dev ->
    exists dev',
      reader (snd (reads n this)) = Some dev'
      /\ isInitialized (snd (reads n this)) = true
      /\ answers dev' = skipn n (answers dev)
      /\ length (fst (reads n this)) = n.
Proof.
  induction n as [|n IH]; intros this dev Hinit Hdev.
  - exists dev. cbn. auto.
  - destruct (readCard_one_access this dev Hinit Hdev)
      as [dev1 [Hdev1 [Hans1 Hinit1]]].
    cbn [reads]. destruct (readCard this) as [result this1]. cbn in *.
    destruct (IH this1 dev1 Hinit1 Hdev1) as [dev' [Hdev' [Hinit' [Hans' Hlen]]]].
    destruct (reads n this1) as [results this2]. cbn in *.
    exists dev'. repeat split; auto.
    rewrite Hans', Hans1. symmetry. apply skipn_tl.
Qed.

Lemma runTimeouts_holds (now : Z) (uid : string)
    (pending : list (Z * string)) :
  (forall due, In (due, uid) pending -> now < due) ->
  snd (runTimeouts now pending (Some uid)) = Some uid.
Proof.
  induction pending as [|[d v] rest IH]; intros Hlater; [reflexivity|].
  cbn [runTimeouts].
  assert (Hrest : forall due, In (due, uid) rest -> now < due)
    by (intros due Hin; apply Hlater; now right).
  destruct (Z.leb_spec d now) as [Hdue | Hwait].
  - assert (Hv : String.eqb uid v = false).
    { apply String.eqb_neq. intros <-.
      specialize (Hlater d (or_introl eq_refl)). lia. }
    cbn [expire]. rewrite Hv. now apply IH.
  - specialize (IH Hrest). destruct (runTimeouts now rest (Some uid)).
    exact IH.
Qed.

Lemma runTimeouts_remaining (now : Z) (pending : list (Z * string)) :
  forall last d v,
    In (d, v) (fst (runTimeouts now pending last)) ->
    In (d, v) pending /\ now < d.
Proof.
  induction pending as [|[d0 v0] rest IH]; intros last d v Hin;
    [destruct Hin|].
  cbn [runTimeouts] in Hin.
  destruct (Z.leb_spec d0 now) as [Hdue | Hwait].
  - destruct (IH _ d v Hin). split; [now right | assumption].
  - specialize (IH last d v).
    destruct (runTimeouts now rest last) as [rest' last'].
    destruct Hin as [Heq | Hin].
    + injection Heq as <- <-. split; [now left | assumption].
    + destruct (IH Hin). split; [now right | assumption].
Qed.

(** While [lastUid] is [uid] and every pending timeout for [uid] is due
    at [limit] or later, a tick before [limit] that does not read another
    card is silent and keeps it so. *)
Lemma tick_held (limit now : Z) (uid : string) (p : Polling) :
  lastUid p = Some uid ->
  (forall due, In (due, uid) (timeouts p) -> limit <= due) ->
  now < limit ->
  (forall v, fst (readCard (self p)) = Normal (Some v) -> v = uid) ->
  snd (tick now p) = None
  /\ lastUid (fst (tick now p)) = Some uid
  /\ (forall due, In (due, uid) (timeouts (fst (tick now p))) -> limit <= due)
  /\ self (fst (tick now p)) = snd (readCard (self p)).
Proof.
  intros Hlast Hpending Hnow Hread. unfold tick.
  assert (Hkeep : snd (runTimeouts now (timeouts p) (lastUid p)) = Some uid).
  { rewrite Hlast. apply runTimeouts_holds.
    intros due Hin. specialize (Hpending due Hin). lia. }
  assert (Hsub : forall due,
            In (due, uid) (fst (runTimeouts now (timeouts p) (lastUid p))) ->
            limit <= due).
  { intros due Hin. apply Hpending.
    now apply (runTimeouts_remaining now _ _ _ _ Hin). }
  destruct (runTimeouts now (timeouts p) (lastUid p)) as [pending last].
  cbn in Hkeep, Hsub. subst last.
  destruct (readCard (self p)) as [[[v|]|m] this']; cbn in *; auto.
  rewrite (Hread v eq_refl). unfold differs. rewrite String.eqb_refl.
  rewrite andb_false_r. cbn. auto.
Qed.

Lemma run_held (limit : Z) (uid : string) (times : list Z) :
  forall p,
    lastUid p = Some uid ->
    (forall due, In (due, uid) (timeouts p) -> limit <= due) ->
    Forall (fun now => now < limit) times ->
    (forall v, In (Normal (Some v)) (fst (reads (length times) (self p))) ->
               v = uid) ->
    snd (run times p) = repeat None (length times).
Proof.
  induction times as [|now later IH]; intros p Hlast Hpending Htimes Hreads;
    [reflexivity|].
  inversion Htimes as [|? ? Hnow Hlater]; subst.
  cbn [length reads] in Hreads.
  destruct (tick_held limit now uid p Hlast Hpending Hnow)
    as [Hsilent [Hlast' [Hpending' Hself]]].
  { intros v Hv. apply Hreads.
    destruct (readCard (self p)) as [result this1]. cbn in Hv. subst result.
    destruct (reads (length later) this1). now left. }
  cbn [run]. destruct (tick now p) as [p1 call]. cbn in *. subst call.
  specialize (IH p1 Hlast' Hpending' Hlater).
  destruct (run later p1) as [p2 calls]. cbn in *. f_equal.
  apply IH. intros v Hv. apply Hreads.
  rewrite Hself in Hv.
  destruct (readCard (self p)) as [result this1]. cbn in *.
  destruct (reads (length later) this1). now right.
Qed.

End ReaderFacts.

(** X1.  Two byte sequences that [readCard] turns into the same UID are
    the same sequence: different cards never share a UID string. *)
Theorem uidHex_injective (d1 d2 : list Z) :
  Forall UidFormat.isByte d1 -> Forall UidFormat.isByte d2 ->
  RFIDReader.uidHex d1 = RFIDReader.uidHex d2 -> d1 = d2.
Proof.
  intros H1 H2. rewrite !uidHex_encode by assumption.
  now apply encode_injective.
Qed.

Lemma uidHex_injective_witness :
  [0xA1; 0xB2; 0xC3; 0xD4] = [161; 178; 195; 212].
Proof.
  apply uidHex_injective;
    [ repeat constructor; unfold UidFormat.isByte; lia
    | repeat constructor; unfold UidFormat.isByte; lia
    | reflexivity ].
Defined.

(** X2.  A card that stays in the field is announced once per window:
    after [onCardDetected(uid)] at a time when no older timeout for [uid]
    is still to come, the ticks before the 5000 ms are over that read
    [uid], no card, or fail, never call [onCardDetected]. *)
Theorem startContinuousRead_held_silent
    (p0 p1 : RFIDReader.Polling) (now0 : Z) (uid : string) (times : list Z) :
  RFIDReader.tick now0 p0 = (p1, Some uid) ->
  (forall due, In (due, uid) (RFIDReader.timeouts p0) -> due <= now0) ->
  Forall (fun now => now < now0 + 5000) times ->
  (forall v,
     In (Normal (Some v))
        (fst (RFIDReader.reads (length times) (RFIDReader.self p1))) ->
     v = uid) ->
  snd (RFIDReader.run times p1) = repeat None (length times).
Proof.
  intros Htick Hold Htimes Hreads.
  apply tick_calls in Htick as [_ [_ [_ [Hlast Htimeouts]]]].
  apply (run_held (now0 + 5000) uid); auto.
  intros due Hin. rewrite Htimeouts in Hin.
  apply in_app_or in Hin as [Hin | Hin].
  - apply runTimeouts_remaining in Hin as [Hin Hlater].
    specialize (Hold due Hin). lia.
  - destruct (RFIDReader.onCardDetected p0 now0 uid); [|destruct Hin].
    destruct Hin as [Heq | []]. injection Heq as <-. lia.
Qed.

(** The card held from 1000 ms on: no call at 2000, 3000, 4000, 5000. *)
Lemma startContinuousRead_held_silent_witness :
  snd (RFIDReader.run [2000; 3000; 4000; 5000]
         (fst (RFIDReader.tick 1000 Sample.polling)))
  = [None; None; None; None].
Proof.
  apply (startContinuousRead_held_silent Sample.polling
           (fst (RFIDReader.tick 1000 Sample.polling)) 1000 "A1B2C3D4"
           [2000; 3000; 4000; 5000]).
  - reflexivity.
  - intros due [].
  - repeat constructor.
  - intros v Hin. vm_compute in Hin.
    repeat (destruct Hin as [Heq | Hin]; [now injection Heq as <-|]).
    destruct Hin.
Defined.

(** X3.  In a loop started by [startContinuousRead], [lastUid] is at
    every moment [null] or the UID of the latest call of
    [onCardDetected]. *)
Theorem startContinuousRead_lastUid
    (this : RFIDReader.t)
    (onCardDetected : Z -> string -> Completion unit)
    (interval : option Z) (p p' : RFIDReader.Polling)
    (times : list Z) (calls : list (option string)) :
  RFIDReader.startContinuousRead this onCardDetected interval = Normal p ->
  RFIDReader.run times p = (p', calls) ->
  RFIDReader.lastUid p' = None
  \/ RFIDReader.lastUid p' = RFIDReader.lastEmitted None calls.
Proof.
  intros Hstart Hrun.
  apply (lastUid_lastEmitted times p p' calls None); [|exact Hrun].
  unfold RFIDReader.startContinuousRead in Hstart.
  destruct (negb (RFIDReader.isInitialized this)); [discriminate|].
  injection Hstart as <-. now left.
Qed.

Lemma startContinuousRead_lastUid_witness :
  RFIDReader.lastUid
    (fst (RFIDReader.run [1000; 2000; 3000] Sample.polling)) = None
  \/ RFIDReader.lastUid
       (fst (RFIDReader.run [1000; 2000; 3000] Sample.polling))
     = RFIDReader.lastEmitted None
         (snd (RFIDReader.run [1000; 2000; 3000] Sample.polling)).
Proof.
  apply (startContinuousRead_lastUid
           (Sample.cardReader (repeat Sample.card 7))
           (fun _ _ => Normal tt) None Sample.polling
           _ [1000; 2000; 3000]);
    reflexivity.
Defined.

(** X4.  A reader that its constructor returned stays usable: after any
    number of reads it is still initialized, each read has taken exactly
    one answer of the driver, in order, and there is one result per
    read. *)
Theorem readCard_consumes_in_order
    (driver : option (Completion RFIDReader.MFRC522)) (this : RFIDReader.t)
    (n : nat) :
  RFIDReader.new driver = Normal this ->
  exists dev dev',
    driver = Some (Normal dev)
    /\ RFIDReader.reader (snd (RFIDReader.reads n this)) = Some dev'
    /\ RFIDReader.isInitialized (snd (RFIDReader.reads n this)) = true
    /\ RFIDReader.answers dev' = skipn n (RFIDReader.answers dev)
    /\ length (fst (RFIDReader.reads n this)) = n.
Proof.
  intros Hnew. unfold RFIDReader.new in Hnew.
  destruct driver as [[dev|m]|]; try discriminate.
  injection Hnew as <-.
  destruct (reads_live n
              {| RFIDReader.reader := Some dev;
                 RFIDReader.isInitialized := true |} dev eq_refl eq_refl)
    as [dev' H].
  exists dev, dev'. split; [reflexivity | exact H].
Qed.

Lemma readCard_consumes_in_order_witness :
  exists dev dev',
    Some (Normal {| RFIDReader.answers :=
                      [Sample.card; Sample.busError; Sample.otherCard] |})
      = Some (Normal dev)
    /\ RFIDReader.reader
         (snd (RFIDReader.reads 2
                 (Sample.cardReader
                    [Sample.card; Sample.busError; Sample.otherCard])))
       = Some dev'
    /\ RFIDReader.isInitialized
         (snd (RFIDReader.reads 2
                 (Sample.cardReader
                    [Sample.card; Sample.busError; Sample.otherCard])))
       = true
    /\ RFIDReader.answers dev' = skipn 2 (RFIDReader.answers dev)
    /\ length
         (fst (RFIDReader.reads 2
                 (Sample.cardReader
                    [Sample.card; Sample.busError; Sample.otherCard])))
       = 2%nat.
Proof.
  apply (readCard_consumes_in_order
           (Some (Normal {| RFIDReader.answers :=
                              [Sample.card; Sample.busError;
                               Sample.otherCard] |}))).
  reflexivity.
Defined.

(** ** The mock reader *)

Lemma mock_run_nth (ticks : nat) :
  forall this k,
    (MockRFIDReader.currentIndex this
     < length (MockRFIDReader.mockCards this))%nat ->
    (k < ticks)%nat ->
    nth_error (fst (MockRFIDReader.run ticks this)) k
    = Some (nth_error (MockRFIDReader.mockCards this)
              ((MockRFIDReader.currentIndex this + k)
               mod length (MockRFIDReader.mockCards this))).
Proof.
  induction ticks as [|ticks IH]; intros this k Hindex Hk; [lia|].
  cbn [MockRFIDReader.run]. unfold MockRFIDReader.readCard at 1.
  destruct (MockRFIDReader.run ticks _) as [calls this2] eqn:Hrun.
  destruct k as [|k].
  - cbn. rewrite Nat.add_0_r, Nat.mod_small by assumption. reflexivity.
  - cbn [nth_error fst].
    change calls with (fst (calls, this2)). rewrite <- Hrun.
    rewrite IH; cbn; try lia.
    + rewrite Nat.Div0.add_mod_idemp_l. do 3 f_equal. lia.
    + apply Nat.mod_upper_bound. lia.
Qed.

(** X5.  The mock reader hands out its cards in rotation and without
    debouncing: from an index inside the list, the [k]-th tick of its
    [startContinuousRead] calls back with the card at position
    [(index + k) mod count], so every tick reports a card and each card
    comes back after [count] ticks. *)
Theorem mock_rotation (this : MockRFIDReader.t) (ticks k : nat) :
  (MockRFIDReader.currentIndex this
   < length (MockRFIDReader.mockCards this))%nat ->
  (k < ticks)%nat ->
  exists card,
    nth_error (MockRFIDReader.mockCards this)
      ((MockRFIDReader.currentIndex this + k)
       mod length (MockRFIDReader.mockCards this)) = Some card
    /\ nth_error (fst (MockRFIDReader.run ticks this)) k = Some (Some card)
    /\ ((k + length (MockRFIDReader.mockCards this) < ticks)%nat ->
        nth_error (fst (MockRFIDReader.run ticks this))
          (k + length (MockRFIDReader.mockCards this))
        = Some (Some card)).
Proof.
  intros Hindex Hk.
  assert (Hlen : (length (MockRFIDReader.mockCards this) <> 0)%nat) by lia.
  destruct (nth_error (MockRFIDReader.mockCards this)
              ((MockRFIDReader.currentIndex this + k)
               mod length (MockRFIDReader.mockCards this))) as [card|] eqn:Hcard.
  - exists card. split; [reflexivity|]. split.
    + rewrite mock_run_nth by assumption. now rewrite Hcard.
    + intros Hk'. rewrite mock_run_nth by assumption.
      rewrite Nat.add_assoc.
      rewrite <- (Nat.Div0.add_mod_idemp_r _ (length _)).
      rewrite Nat.Div0.mod_same, Nat.add_0_r. now rewrite Hcard.
  - apply nth_error_None in Hcard.
    pose proof (Nat.mod_upper_bound
                  (MockRFIDReader.currentIndex this + k) _ Hlen). lia.
Qed.

(** The reader as constructed: the sixth tick reports the second card,
    as the second tick did. *)
Lemma mock_rotation_witness :
  exists card,
    nth_error (MockRFIDReader.mockCards MockRFIDReader.new)
      ((MockRFIDReader.currentIndex MockRFIDReader.new + 1)
       mod length (MockRFIDReader.mockCards MockRFIDReader.new)) = Some card
    /\ nth_error (fst (MockRFIDReader.run 6 MockRFIDReader.new)) 1
       = Some (Some card)
    /\ ((1 + length (MockRFIDReader.mockCards MockRFIDReader.new) < 6)%nat ->
        nth_error (fst (MockRFIDReader.run 6 MockRFIDReader.new))
          (1 + length (MockRFIDReader.mockCards MockRFIDReader.new))
        = Some (Some card)).
Proof.
  apply (mock_rotation MockRFIDReader.new 6 1); cbn; lia.
Defined.

(** ** The printer on any port *)

Section Transmission.

Import PrinterService.

Lemma sends_sendCommand (command : list Z) :
  sends (sendCommand command) [bufferFrom command].
Proof.
  intros this. unfold sendCommand.
  destruct (isConnected this) eqn:Hcon;
    [|exists [], [bufferFrom command]; cbn; rewrite app_nil_r;
      repeat split; auto; discriminate].
  destruct (port this) as [sp|] eqn:Hport;
    [|exists [], [bufferFrom command]; cbn; rewrite app_nil_r;
      repeat split; auto; discriminate].
  unfold write, output.
  destruct (outcomes sp) as [|[err|] later]; cbn; rewrite ?Hport.
  - exists [bufferFrom command], []. repeat split; auto.
  - exists [], [bufferFrom command]. rewrite app_nil_r.
    repeat split; auto; discriminate.
  - exists [bufferFrom command], []. repeat split; auto.
Qed.

Lemma sends_ret : sends (ret tt) [].
Proof.
  intros this. exists [], []. cbn. rewrite app_nil_r. repeat split; auto.
Qed.

Lemma sends_bind (c k : Action unit) (s1 s2 : list (list Z)) :
  sends c s1 -> sends k s2 -> sends (c ;; k) (List.app s1 s2).
Proof.
  intros Hc Hk this.
  destruct (Hc this) as [sent1 [rest1 [Hs1 [Hout1 [Hok1 Hcon1]]]]].
  unfold bind. destruct (c this) as [[[]|e] this1]; cbn in *.
  - assert (rest1 = []) by now apply Hok1. subst rest1.
    rewrite app_nil_r in Hs1. subst s1.
    destruct (Hk this1) as [sent2 [rest2 [Hs2 [Hout2 [Hok2 Hcon2]]]]].
    exists (List.app sent1 sent2), rest2. repeat split.
    + now rewrite Hs2, app_assoc.
    + now rewrite Hout2, Hout1, app_assoc.
    + apply Hok2.
    + apply Hok2.
    + congruence.
  - exists sent1, (List.app rest1 s2). repeat split; auto.
    + now rewrite Hs1, app_assoc.
    + discriminate.
    + intros Hnil. apply app_eq_nil in Hnil as [Hnil _].
      apply Hok1 in Hnil. discriminate.
Qed.

Lemma sends_when (b : bool) (c : Action unit) (s : list (list Z)) :
  sends c s -> sends (when b c) (if b then s else []).
Proof.
  intros Hc. destruct b; [exact Hc | exact sends_ret].
Qed.

Lemma sends_printText (text : string) (options : Options) :
  sends (printText text options)
    (List.app (if center options then [COMMANDS.ALIGN_CENTER] else [])
    (List.app (if bold options then [COMMANDS.BOLD_ON] else [])
    (List.app (if doubleSize options then [COMMANDS.FONT_SIZE_DOUBLE] else [])
    (List.app [bufferFrom (List.app (JsString.utf8Bytes text) COMMANDS.FEED_LINE)]
    (List.app (if bold options then [COMMANDS.BOLD_OFF] else [])
    (List.app (if doubleSize options then [COMMANDS.FONT_SIZE_NORMAL] else [])
              (if center options then [COMMANDS.ALIGN_LEFT] else []))))))).
Proof.
  unfold printText.
  repeat apply sends_bind;
    try apply (sends_when _ _ [_]); apply sends_sendCommand.
Qed.

(** A line of text is never the paper cut: it ends with the line feed. *)
Lemma text_not_cut (text : string) :
  bufferFrom (List.app (JsString.utf8Bytes text) COMMANDS.FEED_LINE)
  <> COMMANDS.CUT_PAPER.
Proof.
  intros Heq. apply (f_equal (fun l => last l 0)) in Heq.
  unfold bufferFrom in Heq. rewrite map_app in Heq.
  change (map (fun b => b mod 256) COMMANDS.FEED_LINE) with [10] in Heq.
  rewrite last_last in Heq. discriminate.
Qed.

Lemma sends_printReceipt {host : Host} (data : ReceiptData) :
  exists segments,
    sends (printReceipt data) segments
    /\ emits (printReceipt data) segments
    /\ Forall (fun segment => segment <> COMMANDS.CUT_PAPER)
              (removelast segments)
    /\ In (bufferFrom
             (List.app
                (JsString.utf8Bytes
                   ("Card: " ++
                    JsString.trim (JsString.spaceDigitGroups (cardNumber data))))
                COMMANDS.FEED_LINE))
          segments.
Proof.
  eexists. split; [|split; [|split]].
  - unfold printReceipt.
    repeat (apply sends_bind;
            [first [apply sends_sendCommand | apply sends_printText]|]).
    apply sends_sendCommand.
  - unfold printReceipt.
    repeat (apply emits_bind;
            [first [apply emits_sendCommand | apply emits_printText]|]).
    apply emits_sendCommand.
  - cbn [center bold doubleSize centered plain List.app removelast].
    repeat (constructor; [first [apply text_not_cut | discriminate]|]).
    constructor.
  - cbn [center bold doubleSize centered plain List.app In].
    do 19 right. left. reflexivity.
Qed.

Lemma sends_format {host : Host} (data : ReceiptData) :
  sends (printReceipt data) (format data)
  /\ Forall (fun segment => segment <> COMMANDS.CUT_PAPER)
            (removelast (format data))
  /\ In (bufferFrom
           (List.app
              (JsString.utf8Bytes
                 ("Card: " ++
                  JsString.trim (JsString.spaceDigitGroups (cardNumber data))))
              COMMANDS.FEED_LINE))
        (format data).
Proof.
  destruct (sends_printReceipt data)
    as [segments [Hsends [Hemits [Hcut Hcard]]]].
  assert (Hformat : format data = segments).
  { unfold format.
    destruct (Hemits blank eq_refl) as [this' [Hrun [_ Hout]]].
    rewrite Hrun. exact Hout. }
  rewrite Hformat. auto.
Qed.

Lemma sends_testPrint {host : Host} (now : string) :
  exists segments,
    sends (testPrint now) segments
    /\ emits (testPrint now) segments
    /\ length segments = 13%nat
    /\ last segments [] = COMMANDS.CUT_PAPER
    /\ ~ In COMMANDS.INIT segments.
Proof.
  eexists. split; [|split; [|split; [|split]]].
  - unfold testPrint.
    repeat (apply sends_bind; [apply sends_printText|]).
    apply sends_sendCommand.
  - unfold testPrint.
    repeat (apply emits_bind; [apply emits_printText|]).
    apply emits_sendCommand.
  - reflexivity.
  - reflexivity.
  - cbn [center bold doubleSize centered plain List.app In].
    intros Hin.
    repeat (destruct Hin as [Heq | Hin];
            [first [discriminate Heq
                   | apply (f_equal (fun l => last l 0)) in Heq;
                     unfold bufferFrom in Heq; rewrite map_app in Heq;
                     change (map (fun b => b mod 256) COMMANDS.FEED_LINE)
                       with [10] in Heq;
                     rewrite last_last in Heq; discriminate Heq]|]).
    exact Hin.
Qed.

End Transmission.

Lemma skipn_appended {A} (l sent : list A) :
  skipn (length l) (List.app l sent) = sent.
Proof.
  rewrite skipn_app, skipn_all, Nat.sub_diag. reflexivity.
Qed.

(** X6.  Whatever the state of the printer, [printReceipt] sends a
    prefix of the receipt and nothing else; it completes exactly when it
    has sent all of it; when it throws, no paper cut has been sent; and it
    never changes [isConnected]. *)
Theorem printReceipt_sends_prefix {host : Host}
    (data : PrinterService.ReceiptData) (p : PrinterService.t) :
  exists rest,
    PrinterService.format data
      = List.app (PrinterService.sentBy data p) rest
    /\ (fst (PrinterService.printReceipt data p) = Normal tt <-> rest = [])
    /\ (rest <> [] ->
        ~ In PrinterService.COMMANDS.CUT_PAPER (PrinterService.sentBy data p))
    /\ PrinterService.isConnected (snd (PrinterService.printReceipt data p))
       = PrinterService.isConnected p.
Proof.
  destruct (sends_format data) as [Hsends [Hcut _]].
  destruct (Hsends p) as [sent [rest [Hformat [Hout [Hok Hcon]]]]].
  assert (Hsent : PrinterService.sentBy data p = sent).
  { unfold PrinterService.sentBy. rewrite Hout. apply skipn_appended. }
  exists rest. rewrite Hsent. repeat split; auto; try apply Hok.
  intros Hrest Hin. rewrite Hformat in Hcut.
  rewrite removelast_app in Hcut by assumption.
  apply Forall_app in Hcut as [Hcut _].
  exact (proj1 (Forall_forall _ _) Hcut _ Hin eq_refl).
Qed.

(** X7.  A service that its constructor returned is not connected: until
    the ['open'] event every [printReceipt] throws "Printer not
    connected" and sends nothing.  The event connects it and, when the
    writes of the port succeed, sends the initialize command and leaves
    the printer ready. *)
Theorem new_waits_for_open {host : Host}
    (open : string -> Z -> Completion PrinterService.SerialPort)
    (portPath : option string) (baudRate : option Z) (p : PrinterService.t) :
  PrinterService.new open portPath baudRate = Normal p ->
  PrinterService.isConnected p = false
  /\ (forall data,
        PrinterService.printReceipt data p
        = (Throw "Printer not connected", p))
  /\ PrinterService.isConnected (PrinterService.onOpen p) = true
  /\ (forall sp,
        PrinterService.port p = Some sp ->
        forallb (fun o => match o with None => true | Some _ => false end)
                (PrinterService.outcomes sp) = true ->
        PrinterService.ready (PrinterService.onOpen p) = true
        /\ PrinterService.output (PrinterService.onOpen p)
           = List.app (PrinterService.written sp)
               [PrinterService.COMMANDS.INIT]).
Proof.
  intros Hnew. unfold PrinterService.new in Hnew.
  destruct (open _ _) as [sp0|m]; [|discriminate].
  injection Hnew as <-. cbn [PrinterService.isConnected].
  split; [reflexivity|]. split; [|split].
  - intros data. now apply printReceipt_not_connected.
  - unfold PrinterService.onOpen. cbn.
    destruct (PrinterService.write _ sp0). reflexivity.
  - intros sp Hsp Hok. cbn in Hsp. injection Hsp as <-.
    unfold PrinterService.onOpen.
    cbn [PrinterService.portPath PrinterService.baudRate PrinterService.port].
    destruct (emits_sendCommand PrinterService.COMMANDS.INIT
                {| PrinterService.portPath :=
                     match portPath with
                     | Some p => p
                     | None => "/dev/serial0"
                     end;
                   PrinterService.baudRate :=
                     match baudRate with Some b => b | None => 19200 end;
                   PrinterService.port := Some sp0;
                   PrinterService.isConnected := true |})
      as [p' [Hrun [Hready Hout]]].
    { unfold PrinterService.ready. cbn. exact Hok. }
    rewrite Hrun. cbn [snd]. split; [exact Hready | exact Hout].
Qed.

Lemma new_waits_for_open_witness :
  PrinterService.isConnected
    {| PrinterService.portPath := "/dev/serial0";
       PrinterService.baudRate := 19200;
       PrinterService.port := Some Sample.serial;
       PrinterService.isConnected := false |} = false
  /\ (forall data,
        PrinterService.printReceipt (host := Sample.host) data
          {| PrinterService.portPath := "/dev/serial0";
             PrinterService.baudRate := 19200;
             PrinterService.port := Some Sample.serial;
             PrinterService.isConnected := false |}
        = (Throw "Printer not connected",
           {| PrinterService.portPath := "/dev/serial0";
              PrinterService.baudRate := 19200;
              PrinterService.port := Some Sample.serial;
              PrinterService.isConnected := false |}))
  /\ PrinterService.onOpen
       {| PrinterService.portPath := "/dev/serial0";
          PrinterService.baudRate := 19200;
          PrinterService.port := Some Sample.serial;
          PrinterService.isConnected := false |}
     = {| PrinterService.portPath := "/dev/serial0";
          PrinterService.baudRate := 19200;
          PrinterService.port :=
            Some {| PrinterService.path := "/dev/serial0";
                    PrinterService.baud := 19200;
                    PrinterService.written := [PrinterService.COMMANDS.INIT];
                    PrinterService.outcomes := [] |};
          PrinterService.isConnected := true |}.
Proof.
  destruct (new_waits_for_open (host := Sample.host)
              (fun _ _ => Normal Sample.serial) None None _ eq_refl)
    as [Hoff [Hthrow _]].
  split; [exact Hoff|]. split; [exact Hthrow | reflexivity].
Defined.

(** X8.  [testPrint] sends a prefix of a fixed sequence of thirteen
    segments that ends with the paper cut and does not contain the
    initialize command; it completes exactly when all of it was sent,
    which is the case on a printer that is ready. *)
Theorem testPrint_segments {host : Host} (now : string)
    (p : PrinterService.t) :
  exists segments sent rest,
    segments = List.app sent rest
    /\ length segments = 13%nat
    /\ last segments [] = PrinterService.COMMANDS.CUT_PAPER
    /\ ~ In PrinterService.COMMANDS.INIT segments
    /\ PrinterService.output (snd (PrinterService.testPrint now p))
       = List.app (PrinterService.output p) sent
    /\ (fst (PrinterService.testPrint now p) = Normal tt <-> rest = [])
    /\ (PrinterService.ready p = true -> rest = []).
Proof.
  destruct (sends_testPrint now)
    as [segments [Hsends [Hemits [Hlen [Hlast Hinit]]]]].
  destruct (Hsends p) as [sent [rest [Hsplit [Hout [Hok Hcon]]]]].
  exists segments, sent, rest. repeat split; auto; try apply Hok.
  intros Hready. destruct (Hemits p Hready) as [p' [Hrun _]].
  apply Hok. now rewrite Hrun.
Qed.

(** ** The card line of the receipt *)

Section CardLine.

Import JsString.

Lemma digitsOf_cons (a : ascii) (s : string) :
  digitsOf (String a s)
  = if isDigit a then a :: digitsOf s else digitsOf s.
Proof. reflexivity. Qed.

Lemma spaceDigitGroups_digits (n : nat) :
  forall s, (String.length s <= n)%nat ->
            digitsOf (spaceDigitGroups s) = digitsOf s.
Proof.
  induction n as [|n IH]; intros s Hlen.
  - destruct s; [reflexivity | cbn in Hlen; lia].
  - destruct s as [|a s']; [reflexivity|].
    cbn [String.length] in Hlen.
    assert (Hplain : digitsOf (String a (spaceDigitGroups s'))
                     = digitsOf (String a s')).
    { rewrite !digitsOf_cons, IH by lia. reflexivity. }
    destruct s' as [|b [|c [|d rest]]]; try exact Hplain.
    cbn [spaceDigitGroups].
    destruct (isDigit a && isDigit b && isDigit c && isDigit d) eqn:Hgroup;
      [|exact Hplain].
    apply andb_prop in Hgroup as [Hgroup Hd].
    apply andb_prop in Hgroup as [Hgroup Hc].
    apply andb_prop in Hgroup as [Ha Hb].
    rewrite !digitsOf_cons, Ha, Hb, Hc, Hd.
    change (isDigit " ") with false. cbv iota.
    rewrite IH by (cbn [String.length] in Hlen; lia). reflexivity.
Qed.

Lemma stripPrefix_digits (pattern : list N) :
  forall l l',
    noDigit pattern = true ->
    stripPrefix pattern l = Some l' ->
    filter isDigit l = filter isDigit l'.
Proof.
  induction pattern as [|x pattern IH]; intros l l' Hno Hstrip.
  - cbn in Hstrip. now injection Hstrip as <-.
  - destruct l as [|c l]; [discriminate|]. cbn in Hstrip, Hno.
    apply andb_prop in Hno as [Hx Hno].
    destruct (N.eqb_spec (N_of_ascii c) x) as [Heq | Hneq]; [|discriminate].
    cbn [filter]. unfold isDigit at 1. rewrite Heq.
    apply negb_true_iff in Hx. rewrite Hx. now apply IH.
Qed.

Lemma stripAny_digits (patterns : list (list N)) :
  forall l l',
    forallb noDigit patterns = true ->
    stripAny patterns l = Some l' ->
    filter isDigit l = filter isDigit l'.
Proof.
  induction patterns as [|pattern patterns IH]; intros l l' Hno Hstrip;
    [discriminate|].
  cbn in Hstrip, Hno. apply andb_prop in Hno as [Hp Hno].
  destruct (stripPrefix pattern l) as [l1|] eqn:Hone.
  - injection Hstrip as <-. now apply (stripPrefix_digits pattern).
  - now apply IH.
Qed.

Lemma dropLeading_digits (patterns : list (list N)) (fuel : nat) :
  forall l,
    forallb noDigit patterns = true ->
    filter isDigit (dropLeading fuel patterns l) = filter isDigit l.
Proof.
  induction fuel as [|fuel IH]; intros l Hno; [reflexivity|].
  cbn [dropLeading].
  destruct (stripAny patterns l) as [l'|] eqn:Hstrip; [|reflexivity].
  rewrite IH by assumption. symmetry.
  now apply (stripAny_digits patterns).
Qed.

Lemma filter_reversed {A} (f : A -> bool) (l : list A) :
  filter f (rev l) = rev (filter f l).
Proof.
  induction l as [|a l IH]; [reflexivity|].
  cbn. rewrite filter_app, IH. cbn. destruct (f a); cbn.
  - reflexivity.
  - now rewrite app_nil_r.
Qed.

Lemma trim_digits (s : string) : digitsOf (trim s) = digitsOf s.
Proof.
  unfold digitsOf, trim, toList, ofList.
  rewrite list_ascii_of_string_of_list_ascii.
  unfold trimEnd, trimStart.
  rewrite filter_reversed, dropLeading_digits by reflexivity.
  rewrite filter_reversed, rev_involutive.
  now rewrite dropLeading_digits by reflexivity.
Qed.

End CardLine.

(** X9.  The receipt has a line "Card: " followed by the card number
    regrouped, and regrouping keeps the digits of the card number, all of
    them and in order: it only adds and removes white space. *)
Theorem card_line_keeps_digits {host : Host}
    (data : PrinterService.ReceiptData) :
  In (PrinterService.bufferFrom
        (List.app
           (JsString.utf8Bytes
              ("Card: " ++
               JsString.trim
                 (JsString.spaceDigitGroups (PrinterService.cardNumber data))))
           PrinterService.COMMANDS.FEED_LINE))
     (PrinterService.format data)
  /\ JsString.digitsOf
       (JsString.trim
          (JsString.spaceDigitGroups (PrinterService.cardNumber data)))
     = JsString.digitsOf (PrinterService.cardNumber data).
Proof.
  split.
  - apply (sends_format data).
  - rewrite trim_digits.
    now apply (spaceDigitGroups_digits
                 (String.length (PrinterService.cardNumber data))).
Qed.

(** ** The server with its services *)

(** X10.  When the serial port can be constructed the server starts with
    a printer service and the health route reports it, but until the
    port's ['open'] event [POST /api/print] answers every account record
    with 500 "Print failed: Printer not connected" and prints nothing. *)
Theorem print_before_open {host : Host} (env : Server.Environment)
    (sp : PrinterService.SerialPort) (now : string) (reqBody : Json)
    (data : PrinterService.ReceiptData) :
  Server.openPort env "/dev/serial0" 19200 = Normal sp ->
  Server.receiptData reqBody now = Some data ->
  Server.property "printer" (Server.services (Server.start env))
    = Some (JBool true)
  /\ Server.postPrint reqBody now (Server.start env)
     = Some (Server.statusJson 500
               (JObj [ ("error",
                        JStr "Print failed: Printer not connected") ]),
             Server.start env).
Proof.
  intros Hopen Hdata.
  unfold Server.start, Server.postPrint, Server.services.
  cbn [Server.printerService Server.rfidReader Server.usersDatabase].
  unfold PrinterService.new. rewrite Hopen.
  cbn [Server.tryAssign truthyObject]. split.
  - reflexivity.
  - rewrite Hdata.
    rewrite printReceipt_not_connected by reflexivity.
    reflexivity.
Qed.

Lemma print_before_open_witness :
  let env :=
    {| Server.usersFile := Normal Sample.users;
       Server.driver := None;
       Server.openPort := fun _ _ => Normal Sample.serial |} in
  Server.property "printer" (Server.services (Server.start env))
    = Some (JBool true)
  /\ Server.postPrint (host := Sample.host) (jsonOfUser Sample.juan)
       "2025-10-21T10:30:00.000Z" (Server.start env)
     = Some (Server.statusJson 500
               (JObj [ ("error",
                        JStr "Print failed: Printer not connected") ]),
             Server.start env).
Proof.
  cbv zeta.
  apply (print_before_open (host := Sample.host)
           {| Server.usersFile := Normal Sample.users;
              Server.driver := None;
              Server.openPort := fun _ _ => Normal Sample.serial |}
           Sample.serial "2025-10-21T10:30:00.000Z" (jsonOfUser Sample.juan)
           {| PrinterService.name := "Juan Dela Cruz";
              PrinterService.accountType := "Savings";
              PrinterService.balance := 15420.5%float;
              PrinterService.cardNumber := "4532 1234 5678 9012";
              PrinterService.timestamp := "2025-10-21T10:30:00.000Z" |});
    reflexivity.
Defined.

(** X11.  When [data/users.json] cannot be read or parsed the server
    starts with an empty store: every [GET /api/user/:uid] answers 404. *)
Theorem start_without_users (env : Server.Environment) (message key : string) :
  Server.usersFile env = Throw message ->
  Server.getUser key (Server.start env)
  = (Server.statusJson 404 (JObj [ ("error", JStr "User not found") ]),
     Server.start env).
Proof.
  intros Hfile. unfold Server.getUser, Server.start.
  cbn [Server.usersDatabase]. rewrite Hfile. reflexivity.
Qed.

Lemma start_without_users_witness :
  let env :=
    {| Server.usersFile := Throw "ENOENT: no such file or directory";
       Server.driver := None;
       Server.openPort := fun _ _ => Normal Sample.serial |} in
  Server.getUser "A1B2C3D4" (Server.start env)
  = (Server.statusJson 404 (JObj [ ("error", JStr "User not found") ]),
     Server.start env).
Proof.
  cbv zeta.
  apply (start_without_users _ "ENOENT: no such file or directory").
  reflexivity.
Defined.

(** X12.  The body that the client posts for its current user, on a
    server whose printer is ready: the answer is 200 "Receipt printed" and
    the printer has received exactly the receipt of that user's name,
    account type, balance and card number with the time of the request. *)
Theorem print_current_user {host : Host} (srv : Server.t)
    (p : PrinterService.t) (user : User) (now : string) :
  Server.printerService srv = Some p ->
  PrinterService.ready p = true ->
  exists p',
    Server.postPrint (UseATMConnection.printBody user) now srv
    = Some (Server.json (JObj [ ("success", JBool true);
                                ("message", JStr "Receipt printed") ]),
            Server.withPrinter srv p')
    /\ PrinterService.output p'
       = List.app (PrinterService.output p)
           (PrinterService.format
              {| PrinterService.name := name user;
                 PrinterService.accountType := accountType user;
                 PrinterService.balance := balance user;
                 PrinterService.cardNumber := cardNumber user;
                 PrinterService.timestamp := now |})
    /\ PrinterService.ready p' = true.
Proof.
  intros Hsvc Hready.
  destruct (proj1 (emits_format
              {| PrinterService.name := name user;
                 PrinterService.accountType := accountType user;
                 PrinterService.balance := balance user;
                 PrinterService.cardNumber := cardNumber user;
                 PrinterService.timestamp := now |}) p Hready)
    as [p' [Hrun [Hready' Hout]]].
  exists p'. unfold Server.postPrint. rewrite Hsvc.
  change (Server.receiptData (UseATMConnection.printBody user) now)
    with (Some {| PrinterService.name := name user;
                  PrinterService.accountType := accountType user;
                  PrinterService.balance := balance user;
                  PrinterService.cardNumber := cardNumber user;
                  PrinterService.timestamp := now |}).
  cbv beta iota. rewrite Hrun. auto.
Qed.

Lemma print_current_user_witness :
  exists p',
    Server.postPrint (host := Sample.host)
      (UseATMConnection.printBody Sample.juan) "2025-10-21T10:30:00.000Z"
      (Server.withPrinter Sample.bare Sample.printer)
    = Some (Server.json (JObj [ ("success", JBool true);
                                ("message", JStr "Receipt printed") ]),
            Server.withPrinter
              (Server.withPrinter Sample.bare Sample.printer) p')
    /\ PrinterService.output p'
       = List.app (PrinterService.output Sample.printer)
           (PrinterService.format (host := Sample.host)
              {| PrinterService.name := name Sample.juan;
                 PrinterService.accountType := accountType Sample.juan;
                 PrinterService.balance := balance Sample.juan;
                 PrinterService.cardNumber := cardNumber Sample.juan;
                 PrinterService.timestamp := "2025-10-21T10:30:00.000Z" |})
    /\ PrinterService.ready p' = true.
Proof.
  apply (print_current_user (host := Sample.host)
           (Server.withPrinter Sample.bare Sample.printer) Sample.printer);
    reflexivity.
Defined.

(** ** The WebSocket endpoint *)

Section Channel.

Import Server.

Lemma events_append (es1 es2 : list Event) :
  forall srv ws,
    events (List.app es1 es2) srv ws
    = events es2 (fst (events es1 srv ws)) (snd (events es1 srv ws)).
Proof.
  induction es1 as [|e es1 IH]; intros srv ws; [reflexivity|].
  destruct e as [now|]; cbn [List.app events].
  - destruct (onInterval now srv ws) as [srv' ws']. apply IH.
  - apply IH.
Qed.

Lemma events_without_timer (es : list Event) :
  forall srv ws, rfidInterval ws = false -> events es srv ws = (srv, ws).
Proof.
  induction es as [|e es IH]; intros srv ws Hoff; [reflexivity|].
  destruct e as [now|]; cbn [events].
  - unfold onInterval. rewrite Hoff. now apply IH.
  - assert (Hsame : onClose ws = ws)
      by (destruct ws; cbn in Hoff; subst; reflexivity).
    rewrite Hsame. now apply IH.
Qed.

(** What the events [es] add to a socket: [card_detected] messages with a
    non-empty UID, each with the time of one of the ticks, and no more of
    them than there are ticks. *)
Lemma events_add (es : list Event) :
  forall srv ws,
    exists more,
      sent (snd (events es srv ws)) = List.app (sent ws) more
      /\ Forall (fun m => exists uid now,
                   m = card_detected uid now /\ uid <> ""
                   /\ In (Interval now) es) more
      /\ (length more <= ticks es)%nat.
Proof.
  induction es as [|e es IH]; intros srv ws.
  - exists []. cbn. rewrite app_nil_r. repeat split; auto.
  - assert (Hweaken : forall more,
              Forall (fun m => exists uid now,
                        m = card_detected uid now /\ uid <> ""
                        /\ In (Interval now) es) more ->
              Forall (fun m => exists uid now,
                        m = card_detected uid now /\ uid <> ""
                        /\ In (Interval now) (e :: es)) more).
    { intros more. apply Forall_impl.
      intros m [uid [now [Hm [Huid Hin]]]]. exists uid, now.
      repeat split; auto. now right. }
    destruct e as [now|]; cbn [events].
    + assert (Hstep :
        (snd (onInterval now srv ws) = ws)
        \/ exists uid, uid <> ""
             /\ sent (snd (onInterval now srv ws))
                = List.app (sent ws) [card_detected uid now]).
      { unfold onInterval. destruct (rfidInterval ws); [|now left].
        destruct (rfidReader srv) as [r|]; [|now left].
        destruct (RFIDReader.readCard r) as [[[uid|]|m] r'];
          try (now left).
        destruct (truthyString (Some uid)) eqn:Htruthy; [|now left].
        right. exists uid. split; [|reflexivity].
        intros ->. discriminate. }
      destruct (onInterval now srv ws) as [srv' ws'].
      destruct (IH srv' ws') as [more [Hsent [Hall Hlen]]].
      cbn [snd] in Hstep. destruct Hstep as [-> | [uid [Huid Hone]]].
      * exists more. repeat split; auto.
        unfold ticks in *. cbn. lia.
      * exists (card_detected uid now :: more). repeat split.
        -- rewrite Hsent, Hone, <- app_assoc. reflexivity.
        -- constructor; [|now apply Hweaken].
           exists uid, now. repeat split; auto. now left.
        -- unfold ticks in *. cbn. lia.
    + destruct (IH srv (onClose ws)) as [more [Hsent [Hall Hlen]]].
      exists more. repeat split; auto.
Qed.

End Channel.

(** X13.  Closing the socket stops the polling: the events after a
    [close] send nothing and do not read the card reader. *)
Theorem close_stops_polling (before after : list Server.Event)
    (srv : Server.t) :
  Server.connection (List.app before (Server.Close :: after)) srv
  = Server.connection (List.app before [Server.Close]) srv.
Proof.
  unfold Server.connection. rewrite !events_append.
  cbn [Server.events].
  now rewrite events_without_timer by reflexivity.
Qed.

(** X14.  Without a card reader a connection carries the handshake and
    nothing else, whatever happens afterwards. *)
Theorem connection_without_reader (es : list Server.Event) (srv : Server.t) :
  Server.rfidReader srv = None ->
  Server.connection es srv
  = (srv, {| Server.sent := [Server.connected srv];
             Server.rfidInterval := false |}).
Proof.
  intros Hnone. unfold Server.connection, Server.onConnection.
  rewrite Hnone. now apply events_without_timer.
Qed.

Lemma connection_without_reader_witness :
  Server.connection
    [ Server.Interval "2025-10-21T10:30:01.000Z"; Server.Close;
      Server.Interval "2025-10-21T10:30:02.000Z" ] Sample.bare
  = (Sample.bare,
     {| Server.sent := [Server.connected Sample.bare];
        Server.rfidInterval := false |}).
Proof.
  apply connection_without_reader. reflexivity.
Defined.

(** X15.  Everything a connection carries after the handshake is a
    [card_detected] message with a non-empty UID and the time of one of
    the ticks, and there is at most one such message per tick. *)
Theorem connection_messages (es : list Server.Event) (srv : Server.t) :
  exists later,
    Server.sent (snd (Server.connection es srv))
    = Server.connected srv :: later
    /\ Forall (fun m => exists uid now,
                 m = Server.card_detected uid now /\ uid <> ""
                 /\ In (Server.Interval now) es) later
    /\ (length later <= Server.ticks es)%nat.
Proof.
  unfold Server.connection.
  destruct (events_add es srv (Server.onConnection srv))
    as [more [Hsent H]].
  exists more. split; [exact Hsent | exact H].
Qed.

(** ** The client hook *)

Section HookFacts.

Import UseATMConnection.

Variable USE_MOCK_DATA : bool.

Lemma fetchUserData_outcome (w : World) (call : nat) (key : string)
    (st : State) :
  match lookup USE_MOCK_DATA w call key with
  | Some user =>
      fetchUserData USE_MOCK_DATA w call key st
      = setError None (setCurrentUser (Some user) st)
  | None =>
      exists message,
        (message = "Card not recognized"
         \/ message = "Failed to load user data")
        /\ fetchUserData USE_MOCK_DATA w call key st
           = setCurrentUser None (setError (Some message) st)
  end.
Proof.
  unfold fetchUserData, lookup, fetchFailed. destruct USE_MOCK_DATA.
  - destruct (loadMockUsers w call) as [users|]; [|eauto].
    destruct (find _ users); eauto.
  - destruct (UseATMConnection.getUser w key) as [|[|] [user|]]; eauto.
Qed.

Lemma fetchUserData_error (w : World) (call : nat) (key : string)
    (st : State) :
  error (fetchUserData USE_MOCK_DATA w call key st) = None
  <-> exists user, lookup USE_MOCK_DATA w call key = Some user.
Proof.
  pose proof (fetchUserData_outcome w call key st) as H.
  destruct (lookup USE_MOCK_DATA w call key) as [user|].
  - rewrite H. cbn. split; eauto.
  - destruct H as [message [_ ->]]. cbn. split; [discriminate|].
    intros [user Hu]. discriminate.
Qed.

Lemma fetchUserData_isScanning (w : World) (call : nat) (key : string)
    (st : State) :
  isScanning (fetchUserData USE_MOCK_DATA w call key st) = isScanning st
  /\ isConnected (fetchUserData USE_MOCK_DATA w call key st) = isConnected st
  /\ ws (fetchUserData USE_MOCK_DATA w call key st) = ws st.
Proof.
  pose proof (fetchUserData_outcome w call key st) as H.
  destruct (lookup USE_MOCK_DATA w call key) as [user|].
  - rewrite H. cbn. auto.
  - destruct H as [message [_ ->]]. cbn. auto.
Qed.

End HookFacts.

Lemma step_keeps_ws (op : UseATMConnection.Operation)
    (st : UseATMConnection.State) :
  UseATMConnection.ws st = None ->
  UseATMConnection.ws (UseATMConnection.step true op st) = None.
Proof.
  intros Hws.
  destruct op as [socket| |key w|w|w|w| | |m w| |];
    cbn [UseATMConnection.step].
  - exact Hws.
  - unfold UseATMConnection.disconnect. rewrite Hws. exact Hws.
  - now rewrite (proj2 (proj2 (fetchUserData_isScanning true w 0 key st))).
  - unfold UseATMConnection.scanCard.
    cbn [UseATMConnection.ws UseATMConnection.setIsScanning].
    destruct (UseATMConnection.loadMockUsers w 0) as [users|]; [|exact Hws].
    destruct (nth_error users (UseATMConnection.randomIndex w));
      [|exact Hws].
    now rewrite (proj2 (proj2 (fetchUserData_isScanning true w 1 _ _))).
  - unfold UseATMConnection.demoLogin.
    cbn [UseATMConnection.ws UseATMConnection.setIsScanning].
    destruct (UseATMConnection.loadMockUsers w 0) as [[|firstUser rest]|];
      try exact Hws.
    now rewrite (proj2 (proj2 (fetchUserData_isScanning true w 1 _ _))).
  - unfold UseATMConnection.printReceipt.
    destruct (UseATMConnection.currentUser st); exact Hws.
  - exact Hws.
  - exact Hws.
  - destruct m as [data_uid| |]; try exact Hws.
    cbn [UseATMConnection.onmessage].
    now rewrite (proj2 (proj2 (fetchUserData_isScanning true w 0 _ st))).
  - exact Hws.
  - exact Hws.
Qed.

(** X16.  After [fetchUserData] exactly one of [currentUser] and [error]
    is set: the record that the lookup found and no error, or no record
    and one of the two error messages; the other state variables are as
    before. *)
Theorem fetchUserData_exclusive (USE_MOCK_DATA : bool)
    (w : UseATMConnection.World) (call : nat) (key : string)
    (st : UseATMConnection.State) :
  let st' := UseATMConnection.fetchUserData USE_MOCK_DATA w call key st in
  ((exists user,
      UseATMConnection.lookup USE_MOCK_DATA w call key = Some user
      /\ UseATMConnection.currentUser st' = Some user
      /\ UseATMConnection.error st' = None)
   \/ (UseATMConnection.lookup USE_MOCK_DATA w call key = None
       /\ UseATMConnection.currentUser st' = None
       /\ (UseATMConnection.error st' = Some "Card not recognized"
           \/ UseATMConnection.error st' = Some "Failed to load user data")))
  /\ UseATMConnection.isConnected st' = UseATMConnection.isConnected st
  /\ UseATMConnection.isScanning st' = UseATMConnection.isScanning st
  /\ UseATMConnection.ws st' = UseATMConnection.ws st.
Proof.
  cbv zeta.
  pose proof (fetchUserData_outcome USE_MOCK_DATA w call key st) as H.
  destruct (UseATMConnection.lookup USE_MOCK_DATA w call key) as [user|].
  - rewrite H. cbn. split; [|auto]. left. eauto.
  - destruct H as [message [Hmessage ->]]. cbn. split; [|auto].
    right. split; [reflexivity|]. split; [reflexivity|].
    destruct Hmessage as [-> | ->]; auto.
Qed.

(** X17.  [scanCard] and [demoLogin] always end with [isScanning] false,
    and they end without an error exactly when they got as far as a
    lookup and the lookup found a record. *)
Theorem scan_clears_flag_and_reports (USE_MOCK_DATA : bool)
    (w : UseATMConnection.World) (st : UseATMConnection.State)
    (op : UseATMConnection.Operation) :
  op = UseATMConnection.ScanCard w \/ op = UseATMConnection.DemoLogin w ->
  UseATMConnection.isScanning (UseATMConnection.step USE_MOCK_DATA op st)
    = false
  /\ (UseATMConnection.error (UseATMConnection.step USE_MOCK_DATA op st)
        = None
      <-> exists w' call key user,
            UseATMConnection.lookupMade USE_MOCK_DATA op = Some (w', call, key)
            /\ UseATMConnection.lookup USE_MOCK_DATA w' call key = Some user).
Proof.
  assert (Hfetch : forall call key st0,
            UseATMConnection.error
              (UseATMConnection.setIsScanning false
                 (UseATMConnection.fetchUserData USE_MOCK_DATA w call key st0))
            = None
            <-> exists w' call' key' user,
                  Some (w, call, key) = Some (w', call', key')
                  /\ UseATMConnection.lookup USE_MOCK_DATA w' call' key'
                     = Some user).
  { intros call key st0.
    change (UseATMConnection.error
              (UseATMConnection.setIsScanning false ?x))
      with (UseATMConnection.error x).
    rewrite fetchUserData_error. split.
    - intros [user Hu]. exists w, call, key, user. auto.
    - intros [w' [call' [key' [user [Heq Hu]]]]].
      injection Heq as <- <- <-. eauto. }
  assert (Hnone : forall message st0,
            UseATMConnection.error
              (UseATMConnection.setIsScanning false
                 (UseATMConnection.setError (Some message) st0)) = None
            <-> exists w' call key user,
                  @None (UseATMConnection.World * nat * string)
                  = Some (w', call, key)
                  /\ UseATMConnection.lookup USE_MOCK_DATA w' call key
                     = Some user).
  { intros message st0. cbn. split; [discriminate|].
    intros [w' [call [key [user [Heq _]]]]]. discriminate. }
  intros [-> | ->]; cbn [UseATMConnection.step UseATMConnection.lookupMade];
    (split; [reflexivity|]).
  - unfold UseATMConnection.scanCard, UseATMConnection.scanFailed.
    destruct USE_MOCK_DATA.
    + destruct (UseATMConnection.loadMockUsers w 0) as [users|];
        [|apply Hnone].
      destruct (nth_error users _) as [randomUser|];
        [apply Hfetch | apply Hnone].
    + destruct (UseATMConnection.postScan w) as [|[|] [data_uid|]];
        first [apply Hfetch | apply Hnone].
  - unfold UseATMConnection.demoLogin.
    destruct (UseATMConnection.loadMockUsers w 0) as [[|firstUser rest]|];
      first [apply Hfetch | apply Hnone].
Qed.

Lemma scan_clears_flag_and_reports_witness :
  UseATMConnection.isScanning
    (UseATMConnection.step true (UseATMConnection.ScanCard Sample.demoWorld)
       UseATMConnection.initial) = false
  /\ (UseATMConnection.error
        (UseATMConnection.step true
           (UseATMConnection.ScanCard Sample.demoWorld)
           UseATMConnection.initial) = None
      <-> exists w' call key user,
            UseATMConnection.lookupMade true
              (UseATMConnection.ScanCard Sample.demoWorld)
            = Some (w', call, key)
            /\ UseATMConnection.lookup true w' call key = Some user).
Proof.
  apply (scan_clears_flag_and_reports true Sample.demoWorld). now left.
Defined.

(** X18.  In demo mode, when the mock users load and there is at least
    one, [demoLogin] logs in the first of them, without an error. *)
Theorem demoLogin_first_user (w : UseATMConnection.World)
    (st : UseATMConnection.State) (firstUser : User) (others : list User) :
  UseATMConnection.loadMockUsers w 0 = Normal (firstUser :: others) ->
  UseATMConnection.loadMockUsers w 1 = Normal (firstUser :: others) ->
  UseATMConnection.currentUser (UseATMConnection.demoLogin true w st)
    = Some firstUser
  /\ UseATMConnection.error (UseATMConnection.demoLogin true w st) = None
  /\ UseATMConnection.isScanning (UseATMConnection.demoLogin true w st)
     = false.
Proof.
  intros Hfirst Hsecond. unfold UseATMConnection.demoLogin.
  rewrite Hfirst. unfold UseATMConnection.fetchUserData.
  rewrite Hsecond. cbn [find]. rewrite String.eqb_refl. cbn. auto.
Qed.

Lemma demoLogin_first_user_witness :
  UseATMConnection.currentUser
    (UseATMConnection.demoLogin true Sample.demoWorld UseATMConnection.initial)
    = Some Sample.juan
  /\ UseATMConnection.error
       (UseATMConnection.demoLogin true Sample.demoWorld
          UseATMConnection.initial) = None
  /\ UseATMConnection.isScanning
       (UseATMConnection.demoLogin true Sample.demoWorld
          UseATMConnection.initial) = false.
Proof.
  apply (demoLogin_first_user Sample.demoWorld UseATMConnection.initial
           Sample.juan [Sample.maria]);
    reflexivity.
Defined.

(** X19.  In demo mode, when the mock users load with unique UIDs,
    [scanCard] logs in the user that the random index picked. *)
Theorem scanCard_random_user (w : UseATMConnection.World)
    (st : UseATMConnection.State) (users : list User) (randomUser : User) :
  UseATMConnection.loadMockUsers w 0 = Normal users ->
  UseATMConnection.loadMockUsers w 1 = Normal users ->
  nth_error users (UseATMConnection.randomIndex w) = Some randomUser ->
  NoDup (map uid users) ->
  UseATMConnection.currentUser (UseATMConnection.scanCard true w st)
    = Some randomUser
  /\ UseATMConnection.error (UseATMConnection.scanCard true w st) = None.
Proof.
  intros Hfirst Hsecond Hnth Hunique. unfold UseATMConnection.scanCard.
  rewrite Hfirst, Hnth. unfold UseATMConnection.fetchUserData.
  rewrite Hsecond.
  assert (Hin : In randomUser users) by (eapply nth_error_In; eauto).
  destruct (find_first (fun u => String.eqb (uid u) (uid randomUser))
              users randomUser Hin (String.eqb_refl _)) as [found Hfound].
  rewrite Hfound. cbn. split; [|reflexivity].
  apply find_some in Hfound as [Hfin Heq]. apply String.eqb_eq in Heq.
  f_equal. now apply (unique_key uid users).
Qed.

Lemma scanCard_random_user_witness :
  UseATMConnection.currentUser
    (UseATMConnection.scanCard true Sample.demoWorld UseATMConnection.initial)
    = Some Sample.maria
  /\ UseATMConnection.error
       (UseATMConnection.scanCard true Sample.demoWorld
          UseATMConnection.initial) = None.
Proof.
  apply (scanCard_random_user Sample.demoWorld UseATMConnection.initial
           [Sample.juan; Sample.maria] Sample.maria);
    try reflexivity.
  cbn. repeat constructor; cbn; intuition discriminate.
Defined.

(** X20.  In demo mode the hook never holds a socket: whatever
    operations run, from the initial state, [ws] stays [null]. *)
Theorem mock_mode_has_no_socket (ops : list UseATMConnection.Operation) :
  UseATMConnection.ws
    (fold_left (fun st op => UseATMConnection.step true op st) ops
       UseATMConnection.initial) = None.
Proof.
  assert (Hall : forall st,
            UseATMConnection.ws st = None ->
            UseATMConnection.ws
              (fold_left (fun st op => UseATMConnection.step true op st)
                 ops st) = None).
  { induction ops as [|op ops IH]; intros st Hws; [exact Hws|].
    cbn [fold_left]. apply IH. now apply step_keeps_ws. }
  now apply Hall.
Qed.

(** ** The page *)

(** X21.  [handlePrint] announces "Receipt Printed" whatever became of
    the print: when the backend is used and does not answer with success,
    the hook ends with the error "Failed to print receipt", the session is
    kept, and the success toast is shown all the same. *)
Theorem handlePrint_toast_after_failure (w : UseATMConnection.World)
    (st : UseATMConnection.State) (user : User) :
  UseATMConnection.currentUser st = Some user ->
  (forall json, UseATMConnection.postPrint w
                <> UseATMConnection.Resolved true json) ->
  UseATMConnection.error (fst (Index.handlePrint false w st))
    = Some "Failed to print receipt"
  /\ Index.render (fst (Index.handlePrint false w st))
     = Index.UserDashboard user
  /\ map Index.title (snd (Index.handlePrint false w st))
     = ["Receipt Printed"].
Proof.
  intros Huser Hfail. unfold Index.handlePrint, Index.render.
  cbn [fst snd]. unfold UseATMConnection.printReceipt. rewrite Huser.
  destruct (UseATMConnection.postPrint w) as [message|[|] json]; cbn;
    rewrite ?Huser; auto.
  now destruct (Hfail json).
Qed.

Lemma handlePrint_toast_after_failure_witness :
  let st :=
    UseATMConnection.setCurrentUser (Some Sample.juan)
      UseATMConnection.initial in
  UseATMConnection.error (fst (Index.handlePrint false Sample.demoWorld st))
    = Some "Failed to print receipt"
  /\ Index.render (fst (Index.handlePrint false Sample.demoWorld st))
     = Index.UserDashboard Sample.juan
  /\ map Index.title (snd (Index.handlePrint false Sample.demoWorld st))
     = ["Receipt Printed"].
Proof.
  cbv zeta.
  apply (handlePrint_toast_after_failure Sample.demoWorld
           (UseATMConnection.setCurrentUser (Some Sample.juan)
              UseATMConnection.initial) Sample.juan).
  - reflexivity.
  - intros json. discriminate.
Defined.
